(** * raaghava.net: the hash router and the search system

    A shallow embedding of [src/js/router.js] (the [Router] object), of the
    search system ([SearchSystem], with [buildSearchIndex], [search] and the
    keyboard handling of the result list) and of the global keyboard handler
    of [src/js/app.js], followed by the properties that the specification
    states about them.

    Conventions of the embedding.
    - A JavaScript string is a [string]: a list of code units in the range
      U+0000..U+00FF, on which [toLowerCase] and [trim] are written out.
    - An object used as a dictionary is a [gmap string _] of its own
      properties; reading a missing key falls back on the properties every
      object literal inherits from [Object.prototype].
    - A field that may be [undefined] is an [option].
    - The DOM, the browser history and the controllers are not state of the
      program: a method returns the calls it makes on them as a list of
      [effect]s, in the order of the calls, next to the new state. *)

From Stdlib Require Import Ascii String ZArith Lia Sorted Permutation.
From stdpp Require Import base strings gmap list.

Open Scope string_scope.
Open Scope list_scope.

(** ** JavaScript string primitives *)

Module JS.

(** [String.prototype.toLowerCase] on one code unit: A..Z and the
    upper-case letters of U+00C0..U+00DE (all but the sign U+00D7) move up
    by 32, every other unit below U+0100 is unchanged. *)
Definition lowerUnit (c : ascii) : ascii :=
  let n := N_of_ascii c in
  if ((65 <=? n) && (n <=? 90) ||
      (192 <=? n) && (n <=? 222) && negb (n =? 215))%N
  then ascii_of_N (n + 32) else c.

Fixpoint toLowerCase (s : string) : string :=
  match s with
  | EmptyString => EmptyString
  | String c s' => String (lowerUnit c) (toLowerCase s')
  end.

(** White space and line terminators below U+0100: TAB, LF, VT, FF, CR,
    SP and NBSP. *)
Definition isSpace (c : ascii) : bool :=
  let n := N_of_ascii c in
  ((9 <=? n) && (n <=? 13) || (n =? 32) || (n =? 160))%N.

Fixpoint trimStart (s : string) : string :=
  match s with
  | EmptyString => EmptyString
  | String c s' => if isSpace c then trimStart s' else s
  end.

Fixpoint trimEnd (s : string) : string :=
  match s with
  | EmptyString => EmptyString
  | String c s' =>
      match trimEnd s' with
      | EmptyString => if isSpace c then EmptyString else String c EmptyString
      | t => String c t
      end
  end.

Definition trim (s : string) : string := trimEnd (trimStart s).

(** A string that does not begin with white space. *)
Definition headed (s : string) : Prop :=
  match s with
  | EmptyString => True
  | String c _ => isSpace c = false
  end.

(** [s.startsWith(p)] *)
Definition startsWith (p s : string) : bool := String.prefix p s.

(** [s.includes(q)]: [q] occurs in [s] at some position. *)
Fixpoint includes (q s : string) : bool :=
  String.prefix q s ||
  match s with
  | EmptyString => false
  | String _ s' => includes q s'
  end.

(** [s.split(sep)] for a separator of one code unit. *)
Fixpoint split (sep : ascii) (s : string) : list string :=
  match s with
  | EmptyString => [EmptyString]
  | String c s' =>
      if Ascii.eqb c sep then EmptyString :: split sep s'
      else match split sep s' with
           | [] => [String c EmptyString]
           | h :: t => String c h :: t
           end
  end.

(** Truthiness of a string value that may be [undefined]. *)
Definition truthy (v : option string) : bool :=
  match v with
  | Some s => negb (String.eqb s "")
  | None => false
  end.

(** [v || ''] *)
Definition orEmpty (v : option string) : string :=
  match v with
  | Some s => s
  | None => ""
  end.

(** [v || []]: an array is truthy even when it is empty. *)
Definition orNil {A : Type} (v : option (list A)) : list A :=
  match v with
  | Some l => l
  | None => []
  end.

(** A value interpolated in a template literal. [None] is [undefined], the
    value of a key that the record does not have; a key that the JSON file
    sets to [null], which a template prints as [null], is not represented. *)
Definition interpolate (v : option string) : string :=
  match v with
  | Some s => s
  | None => "undefined"
  end.

(** The property names of [Object.prototype]; an object literal answers
    to each of them with an inherited function (with [Object.prototype]
    itself for [__proto__]), which is truthy. *)
Definition objectPrototypeKeys : list string :=
  [ "constructor"; "__defineGetter__"; "__defineSetter__"; "hasOwnProperty";
    "__lookupGetter__"; "__lookupSetter__"; "isPrototypeOf";
    "propertyIsEnumerable"; "toString"; "valueOf"; "__proto__";
    "toLocaleString" ].

Definition inherited (key : string) : bool :=
  existsb (String.eqb key) objectPrototypeKeys.

(** [Array.prototype.sort(compare)]. The language requires the sort to be
    stable, which fixes its result for a consistent comparator; it is
    written here as a stable insertion sort ([x] goes before [y] when
    [compare x y <= 0]). *)
Fixpoint insert {A : Type} (compare : A -> A -> Z) (x : A) (l : list A)
  : list A :=
  match l with
  | [] => [x]
  | y :: l' =>
      if (compare x y <=? 0)%Z then x :: l else y :: insert compare x l'
  end.

Definition sort {A : Type} (compare : A -> A -> Z) (l : list A) : list A :=
  fold_right (insert compare) [] l.

(** [l.forEach(x => acc.push(f(x)))] *)
Definition forEachPush {A B : Type} (f : A -> B) (l : list A) (acc : list B)
  : list B :=
  fold_left (fun acc x => acc ++ [f x]) l acc.

End JS.

(** ** The data of the router *)

(** A wall of a room: [{ type, content, route, label }]. *)
Module Wall.
Record t := mk {
  type : string;
  content : option string;
  route : option string;
  label : option string
}.

Definition navigation (content route label : string) : t :=
  mk "navigation" (Some content) (Some route) (Some label).
Definition titled (type content : string) : t :=
  mk type (Some content) None None.
Definition empty : t := mk "empty" None None None.
End Wall.

(** An entry of the route table. Every field is optional: a three-wall room
    has no [layout], a four-wall room has no [backWall]. *)
Module RouteConfig.
Record t := mk {
  title : option string;
  layout : option string;
  heading : option string;
  backWall : option Wall.t;
  leftWall : option Wall.t;
  rightWall : option Wall.t;
  leftmostWall : option Wall.t;
  leftmiddleWall : option Wall.t;
  rightmiddleWall : option Wall.t;
  rightmostWall : option Wall.t
}.

Definition threeWalls (title : string) (back left right : Wall.t) : t :=
  mk (Some title) None None (Some back) (Some left) (Some right)
     None None None None.

Definition fourWalls (title heading : string) (a b c d : Wall.t) : t :=
  mk (Some title) (Some "four-walls") (Some heading) None None None
     (Some a) (Some b) (Some c) (Some d).

(** What the router reads off a value that is no route configuration (an
    inherited function of [Object.prototype]): every field is [undefined]. *)
Definition noFields : t :=
  mk None None None None None None None None None None.
End RouteConfig.

(** The controllers the router and the search system reach through
    [window]. *)
Inductive controller :=
| AboutController
| PhotographyController
| WritingsController
| MusicController
| ProjectsController
| CuratedWritingsController
| CuratedCinemaController
| CuratedMusicController
| CuratedMiscController.

(** A content record as the JSON files give it: duck-typed, with optional
    fields. *)
Module ContentRecord.
Record t := mk {
  id : string;
  title : string;
  filename : option string;
  description : option string;
  excerpt : option string;
  location : option string;
  author : option string;
  director : option string;
  artist : option string;
  creator : option string;
  collection : option string;
  tags : option (list string);
  genres : option (list string);
  technologies : option (list string)
}.
End ContentRecord.

(** [window]. [lightbox]: whether [window.UniversalContentLightbox] is
    defined. [themeManager]: whether [window.ThemeManager] is defined and
    its [toggle] is a function, the test of the [t] shortcut.
    [contentLoader]: whether [previousPhoto] and [nextPhoto] of
    [ContentLoader] are functions, the test of the arrow shortcuts
    ([ContentLoader] itself is taken to be declared, as its script declares
    it). For each controller whether it is defined and, for the eight
    content controllers, its collection ([None] while it is [null]) as
    [Object.values] enumerates it. *)
Module Window.
Record t := mk {
  lightbox : bool;
  themeManager : bool;
  contentLoader : bool;
  about : bool;
  photography : option (option (list ContentRecord.t));
  writings : option (option (list ContentRecord.t));
  music : option (option (list ContentRecord.t));
  projects : option (option (list ContentRecord.t));
  curatedWritings : option (option (list ContentRecord.t));
  curatedCinema : option (option (list ContentRecord.t));
  curatedMusic : option (option (list ContentRecord.t));
  curatedMisc : option (option (list ContentRecord.t))
}.

Definition defined (win : t) (c : controller) : bool :=
  match c with
  | AboutController => about win
  | PhotographyController => bool_decide (is_Some (photography win))
  | WritingsController => bool_decide (is_Some (writings win))
  | MusicController => bool_decide (is_Some (music win))
  | ProjectsController => bool_decide (is_Some (projects win))
  | CuratedWritingsController => bool_decide (is_Some (curatedWritings win))
  | CuratedCinemaController => bool_decide (is_Some (curatedCinema win))
  | CuratedMusicController => bool_decide (is_Some (curatedMusic win))
  | CuratedMiscController => bool_decide (is_Some (curatedMisc win))
  end.

(** [window.C && window.C.collection] *)
Definition collection (c : option (option (list ContentRecord.t)))
  : option (list ContentRecord.t) :=
  match c with
  | Some (Some l) => Some l
  | _ => None
  end.
End Window.

(** ** Effects *)

(** The calls the program makes on the browser, the DOM and the controllers,
    in the order in which they are made. The page is taken to contain the
    [#room] element and its walls; timers are not modelled, a delayed call is
    logged where it is scheduled, and so is the part of an asynchronous
    method that follows an [await]. *)
Inductive effect :=
| PushState (route : string)
| SetDocumentTitle (title : option string)
| Show404
| ClearAllWalls
| ControllerInit (c : controller)
| ControllerRender (c : controller) (collectionId : option string)
| UpdateBackButton
| UpdateHierarchyIndicator (route : string)
| RenderRoom (config : RouteConfig.t) (viewClass : string)
| PreventDefault
| RenderResults (count : nat)
| ScrollToSelected
| UncaughtTypeError
| OverlayShow
| FocusSearchInput
| OverlayHide
| OpenResultInLightbox (type id : string)
| HideSitemap
| ToggleSitemap
| ToggleTheme
| PreviousPhoto
| NextPhoto.

(** ** The router: [src/js/router.js] *)

Module Router.

Record t := mk {
  currentRoute : string;
  previousRoute : string;
  lastClickedWall : option string;
  navigationHistory : list string
}.

(** The [Router] object as the script creates it. *)
Definition initial : t := mk "" "" None [].

(** [routes]: the own properties of the route table. *)
Definition routes : gmap string RouteConfig.t :=
  list_to_map
    [ ("", RouteConfig.threeWalls "Personal Museum"
             (Wall.mk "photo-space" (Some "") None None)
             (Wall.navigation "WORKS" "/works" "navigate")
             (Wall.navigation "ABOUT" "/about" "navigate"));
      ("/about", RouteConfig.threeWalls "About - Personal Museum"
             (Wall.titled "placeholder" "ABOUT") Wall.empty Wall.empty);
      ("/works", RouteConfig.threeWalls "Works - Personal Museum"
             (Wall.titled "section-title" "WORKS")
             (Wall.navigation "PERSONAL" "/works/personal" "navigate")
             (Wall.navigation "CURATED" "/works/curated" "navigate"));
      ("/works/personal", RouteConfig.fourWalls "Personal Works - Museum"
             "Personal Works"
             (Wall.navigation "PHOTOGRAPHY" "/works/personal/photography" "view")
             (Wall.navigation "WRITINGS" "/works/personal/writings" "read")
             (Wall.navigation "MUSIC" "/works/personal/music" "listen")
             (Wall.navigation "PROJECTS" "/works/personal/projects" "explore"));
      ("/works/personal/writings",
         RouteConfig.threeWalls "Personal Writings - Museum"
             (Wall.titled "placeholder" "WRITINGS") Wall.empty Wall.empty);
      ("/works/personal/photography",
         RouteConfig.threeWalls "Photography - Museum"
             (Wall.titled "placeholder" "PHOTOGRAPHY") Wall.empty Wall.empty);
      ("/works/curated", RouteConfig.fourWalls "Curated Works - Museum"
             "Curated Works"
             (Wall.navigation "WRITINGS" "/works/curated/writings" "read")
             (Wall.navigation "CINEMA & TV" "/works/curated/cinema" "watch")
             (Wall.navigation "MUSIC" "/works/curated/music" "listen")
             (Wall.navigation "MISCELLANEOUS" "/works/curated/misc" "explore"));
      ("/works/curated/writings",
         RouteConfig.threeWalls "Curated Writings - Museum"
             (Wall.titled "placeholder" "CURATED WRITINGS")
             Wall.empty Wall.empty);
      ("/works/curated/cinema",
         RouteConfig.threeWalls "Cinema & TV - Museum"
             (Wall.titled "placeholder" "CINEMA & TV") Wall.empty Wall.empty);
      ("/works/curated/music",
         RouteConfig.threeWalls "Curated Music - Museum"
             (Wall.titled "placeholder" "CURATED MUSIC") Wall.empty Wall.empty);
      ("/works/curated/misc",
         RouteConfig.threeWalls "Miscellaneous - Museum"
             (Wall.titled "placeholder" "MISCELLANEOUS") Wall.empty Wall.empty);
      ("/works/personal/music",
         RouteConfig.threeWalls "Personal Music - Museum"
             (Wall.titled "placeholder" "MUSIC") Wall.empty Wall.empty);
      ("/works/personal/projects",
         RouteConfig.threeWalls "Projects - Museum"
             (Wall.titled "placeholder" "PROJECTS") Wall.empty Wall.empty) ].

(** [this.routes[route]]: the own entry, else the value inherited from
    [Object.prototype] (read as a configuration without fields), else
    [undefined]. *)
Definition routeConfigOf (route : string) : option RouteConfig.t :=
  match routes !! route with
  | Some config => Some config
  | None => if JS.inherited route then Some RouteConfig.noFields else None
  end.

(** The prefixes that [handleControllerRoute] tests with [startsWith]. *)
Definition dynamicPrefixes : list string :=
  [ "/photography/"; "/works/curated/writings/"; "/works/curated/cinema/";
    "/works/curated/music/"; "/works/curated/misc/" ].

(** [route.split('/').length] *)
Definition depth (route : string) : nat :=
  List.length (JS.split "/" route).

(** The tail common to every branch of [handleControllerRoute] that a
    controller takes. *)
Definition handled (calls : list effect) (route : string) : list effect :=
  calls ++ [UpdateBackButton; UpdateHierarchyIndicator route].

Section WithWindow.
Context (win : Window.t).

(** [handleControllerRoute(route)]: [Some] of the calls made when a
    controller handles the route (the function returns [true]), [None]
    when it returns [false]. A branch whose controller is not defined
    falls through to the tests that follow it. *)
Definition handleControllerRoute (route : string) : option (list effect) :=
  let collectionId (i : nat) := nth_error (JS.split "/" route) i in
  let has := Window.defined win in
  if String.eqb route "/about" && has AboutController then
    Some (handled [ControllerInit AboutController] route)
  else if String.eqb route "/works/personal/photography"
          && has PhotographyController then
    Some (handled [ControllerInit PhotographyController;
                   ControllerRender PhotographyController None] route)
  else if JS.startsWith "/photography/" route
          && has PhotographyController then
    Some (handled [ControllerRender PhotographyController (collectionId 2)]
                  route)
  else if String.eqb route "/works/personal/writings"
          && has WritingsController then
    Some (handled [ControllerRender WritingsController None] route)
  else if String.eqb route "/works/personal/music"
          && has MusicController then
    Some (handled [ControllerRender MusicController None] route)
  else if String.eqb route "/works/personal/projects"
          && has ProjectsController then
    Some (handled [ControllerRender ProjectsController None] route)
  else if String.eqb route "/works/curated/writings"
          && has CuratedWritingsController then
    Some (handled [ControllerRender CuratedWritingsController None] route)
  else if JS.startsWith "/works/curated/writings/" route
          && has CuratedWritingsController then
    Some (handled [ControllerRender CuratedWritingsController
                     (collectionId 4)] route)
  else if String.eqb route "/works/curated/cinema"
          && has CuratedCinemaController then
    Some (handled [ControllerRender CuratedCinemaController None] route)
  else if JS.startsWith "/works/curated/cinema/" route
          && has CuratedCinemaController then
    Some (handled [ControllerRender CuratedCinemaController
                     (collectionId 4)] route)
  else if String.eqb route "/works/curated/music"
          && has CuratedMusicController then
    Some (handled [ControllerRender CuratedMusicController None] route)
  else if JS.startsWith "/works/curated/music/" route
          && has CuratedMusicController then
    Some (handled [ControllerRender CuratedMusicController
                     (collectionId 4)] route)
  else if String.eqb route "/works/curated/misc"
          && has CuratedMiscController then
    Some (handled [ControllerRender CuratedMiscController None] route)
  else if JS.startsWith "/works/curated/misc/" route
          && has CuratedMiscController then
    Some (handled [ControllerRender CuratedMiscController
                     (collectionId 4)] route)
  else None.

(** [isForwardNavigation()] *)
Definition isForwardNavigation (r : t) : bool :=
  if String.eqb (previousRoute r) "" || String.eqb (currentRoute r) ""
  then false
  else
    let prevDepth := depth (previousRoute r) in
    let currDepth := depth (currentRoute r) in
    Nat.ltb prevDepth currDepth.

(** [isLeafRoute()] *)
Definition isLeafRoute (r : t) : bool :=
  match routeConfigOf (currentRoute r) with
  | None => false
  | Some routeConfig =>
      match RouteConfig.backWall routeConfig with
      | None => false
      | Some backWall =>
          negb (existsb (String.eqb (Wall.type backWall))
                        ["empty"; "section-title"; "photo-space"])
      end
  end.

(** [getViewClass()] *)
Definition getViewClass (r : t) : string :=
  if isForwardNavigation r then "move-forward"
  else if negb (String.eqb (currentRoute r) "/about")
          && bool_decide (lastClickedWall r = Some "left")
          && isLeafRoute r then "view-left"
  else if negb (String.eqb (currentRoute r) "/about")
          && bool_decide (lastClickedWall r = Some "right")
          && isLeafRoute r then "view-right"
  else "".

(** [renderRoute(route)]. The two timer-driven stages of the static
    branch are one [RenderRoom] with the view class that decides between
    them. The method is asynchronous: what follows
    [await this.handleControllerRoute(route)] runs after the caller has
    returned. The list gives the calls of one rendering that nothing
    interrupts, in their order, with the view class read from the state at
    the call; it does not say where the calls of the caller, or of another
    navigation started in the same turn, fall between them. *)
Definition renderRoute (route : string) (r : t) : list effect :=
  match routeConfigOf route with
  | None => [Show404]
  | Some routeConfig =>
      match handleControllerRoute route with
      | Some calls => ClearAllWalls :: calls
      | None => [ClearAllWalls; RenderRoom routeConfig (getViewClass r)]
      end
  end.

(** [navigateTo(route, addToHistory, clickedWall)] *)
Definition navigateTo (route : string) (addToHistory : bool)
    (clickedWall : option string) (r : t) : t * list effect :=
  let r' := mk route (currentRoute r) clickedWall
               (navigationHistory r ++ [route]) in
  (r',
   (if addToHistory then [PushState route] else []) ++
   match routeConfigOf route with
   | Some routeConfig => [SetDocumentTitle (RouteConfig.title routeConfig)]
   | None => []
   end ++
   renderRoute route r').

(** The [hierarchy] table of [getParentRoute]. *)
Definition hierarchy : gmap string string :=
  list_to_map
    [ ("/about", "");
      ("/works", "");
      ("/works/personal", "/works");
      ("/works/curated", "/works");
      ("/works/personal/photography", "/works/personal");
      ("/works/personal/writings", "/works/personal");
      ("/works/personal/music", "/works/personal");
      ("/works/personal/projects", "/works/personal");
      ("/works/curated/writings", "/works/curated");
      ("/works/curated/cinema", "/works/curated");
      ("/works/curated/music", "/works/curated");
      ("/works/curated/misc", "/works/curated") ].

(** [getParentRoute(currentRoute)]. For a key inherited from
    [Object.prototype] the value of [hierarchy[currentRoute] || ''] is a
    function, not a route: the result is [None]. *)
Definition getParentRoute (currentRoute : string) : option string :=
  if String.eqb currentRoute "" then Some ""
  else match hierarchy !! currentRoute with
       | Some parent => Some parent
       | None => if JS.inherited currentRoute then None else Some ""
       end.

(** [goBack()], defined where the parent is a route. *)
Definition goBack (r : t) : option (t * list effect) :=
  match getParentRoute (currentRoute r) with
  | Some parentRoute => Some (navigateTo parentRoute true None r)
  | None => None
  end.

(** [handleRoute()], for the value of [window.location.hash] (empty, or a
    ['#'] followed by the route). *)
Definition handleRoute (hash : string) (r : t) : t * list effect :=
  let route := match hash with
               | EmptyString => ""
               | String _ rest => rest
               end in
  if negb (String.eqb route (currentRoute r))
     || String.eqb (currentRoute r) ""
  then navigateTo route false None r
  else (r, []).

(** One call of a method that changes the router. *)
Inductive step : t -> t -> Prop :=
| step_navigateTo route addToHistory clickedWall r :
    step r (fst (navigateTo route addToHistory clickedWall r))
| step_goBack r r' effects :
    goBack r = Some (r', effects) -> step r r'
| step_handleRoute hash r :
    step r (fst (handleRoute hash r)).

End WithWindow.

(** The [names] table of [getRouteDisplayName]. *)
Definition names : gmap string string :=
  list_to_map
    [ ("", "Home");
      ("/about", "About");
      ("/works", "Works");
      ("/works/personal", "Personal Works");
      ("/works/curated", "Curated Works");
      ("/works/personal/photography", "Photography");
      ("/works/personal/writings", "Writings");
      ("/works/personal/music", "Music");
      ("/works/personal/projects", "Projects");
      ("/works/curated/writings", "Curated Writings");
      ("/works/curated/cinema", "Cinema & TV");
      ("/works/curated/music", "Curated Music");
      ("/works/curated/misc", "Miscellaneous") ].

(** [getRouteDisplayName(route)]: [names[route] || 'Previous Page']. For a
    key inherited from [Object.prototype] the value is a function, not a
    name: the result is [None]. *)
Definition getRouteDisplayName (route : string) : option string :=
  match names !! route with
  | Some name => Some (if String.eqb name "" then "Previous Page" else name)
  | None => if JS.inherited route then None else Some "Previous Page"
  end.

(** What [updateBackButton] writes on the back button. *)
Module BackButton.
Record t := mk {
  opacity : string;
  disabled : bool;
  cursor : string;
  ariaLabel : string;
  title : string
}.
End BackButton.

(** [updateBackButton()], on a page that has the button. When
    [getParentRoute] returns a function, [names] is read at the source text
    of that function, which is no key of the table and no name of
    [Object.prototype]: the name is the fallback. *)
Definition updateBackButton (r : t) : option BackButton.t :=
  let canGoBack := negb (String.eqb (currentRoute r) "") in
  let parentName :=
    match getParentRoute (currentRoute r) with
    | Some parentRoute => getRouteDisplayName parentRoute
    | None => Some "Previous Page"
    end in
  if canGoBack then
    match parentName with
    | Some name =>
        Some (BackButton.mk "1" false "pointer"
                ("Go back to " +:+ name) ("Go back to " +:+ name))
    | None => None
    end
  else
    Some (BackButton.mk "0.3" true "not-allowed"
            "Back (you are at home)" "Back (you are at home)").

(** The walls that [renderWallsForRoute] renders for a configuration. *)
Definition walls (config : RouteConfig.t) : list (option Wall.t) :=
  match RouteConfig.layout config with
  | Some "four-walls" =>
      [ RouteConfig.leftmostWall config; RouteConfig.leftmiddleWall config;
        RouteConfig.rightmiddleWall config; RouteConfig.rightmostWall config ]
  | _ =>
      [ RouteConfig.backWall config; RouteConfig.leftWall config;
        RouteConfig.rightWall config ]
  end.

(** The routes that the navigation walls of a rendered room lead to:
    [renderWall] gives a wall of type [navigation] to
    [renderNavigationWall], whose button calls [navigateTo(config.route)]
    when the route is truthy. *)
Definition navigationTargets (config : RouteConfig.t) : list string :=
  flat_map
    (fun wall =>
       match wall with
       | Some w =>
           if String.eqb (Wall.type w) "navigation" && JS.truthy (Wall.route w)
           then [JS.orEmpty (Wall.route w)] else []
       | None => []
       end)
    (walls config).

(** A node of [navigationTree]: its label, its route and its children. Of
    the description, a display text, the node keeps whether it has one. *)
#[warnings="-register-all"]
Inductive NavigationNode :=
| Node (label : string) (route : option string) (description : bool)
       (children : list NavigationNode).

(** [navigationTree] *)
Definition navigationTree : list NavigationNode :=
  [ Node "ENTRANCE" (Some "") true [];
    Node "ABOUT & CONTACT" (Some "/about") false [];
    Node "WORKS" (Some "/works") false
      [ Node "Personal Works" (Some "/works/personal") false
          [ Node "Photography" (Some "/works/personal/photography") true [];
            Node "Writings" (Some "/works/personal/writings") true [];
            Node "Music" (Some "/works/personal/music") true [];
            Node "Projects" (Some "/works/personal/projects") true [] ];
        Node "Curated Works" (Some "/works/curated") false
          [ Node "Curated Writings" (Some "/works/curated/writings") true [];
            Node "Cinema & TV" (Some "/works/curated/cinema") true [];
            Node "Curated Music" (Some "/works/curated/music") true [];
            Node "Miscellaneous" (Some "/works/curated/misc") true [] ] ] ].

End Router.

(** ** The search system *)

Module SearchSystem.

(** An entry of the search index. A key that [buildSearchIndex] does not
    write for a content type is [None]. *)
Module Entry.
Record t := mk {
  type : string;
  id : string;
  title : string;
  description : string;
  author : option string;
  director : option string;
  creator : option string;
  location : option string;
  artist : option string;
  tags : list string;
  contentType : string;
  route : string;
  data : ContentRecord.t
}.
End Entry.

(** A search result: [{ ...item, score }]. *)
Module Result.
Record t := mk { item : Entry.t; score : Z }.
End Result.

(** [elements]: whether [cacheElements] found each element of the page. *)
Module Elements.
Record t := mk { overlay : bool; input : bool; results : bool;
                 closeBtn : bool }.
End Elements.

Record t := mk {
  searchIndex : list Entry.t;
  isIndexed : bool;
  isSearchOpen : bool;
  currentResults : list Result.t;
  selectedResultIndex : Z;
  elements : Elements.t
}.

Definition initial (els : Elements.t) : t := mk [] false false [] 0 els.

(** The index entry written for each content type. *)
Definition photoEntry (photo : ContentRecord.t) : Entry.t :=
  Entry.mk "photo" (ContentRecord.id photo) (ContentRecord.title photo)
    (JS.orEmpty (ContentRecord.description photo))
    None None None
    (Some (JS.orEmpty (ContentRecord.location photo)))
    None
    (JS.orNil (ContentRecord.tags photo))
    "Personal Photography"
    ("/photography/" +:+ JS.interpolate (ContentRecord.collection photo))
    photo.

Definition writingEntry (writing : ContentRecord.t) : Entry.t :=
  Entry.mk "writing"
    (if JS.truthy (ContentRecord.filename writing)
     then JS.orEmpty (ContentRecord.filename writing)
     else ContentRecord.title writing)
    (ContentRecord.title writing)
    (JS.orEmpty (ContentRecord.excerpt writing))
    None None None None None
    (JS.orNil (ContentRecord.tags writing))
    "Personal Writings" "/works/personal/writings" writing.

Definition trackEntry (track : ContentRecord.t) : Entry.t :=
  Entry.mk "music" (ContentRecord.id track) (ContentRecord.title track)
    (JS.orEmpty (ContentRecord.description track))
    None None None None None
    (JS.orNil (ContentRecord.genres track))
    "Personal Music" "/works/personal/music" track.

Definition projectEntry (project : ContentRecord.t) : Entry.t :=
  Entry.mk "project" (ContentRecord.id project) (ContentRecord.title project)
    (JS.orEmpty (ContentRecord.description project))
    None None None None None
    (JS.orNil (ContentRecord.technologies project))
    "Personal Projects" "/works/personal/projects" project.

Definition curatedWritingEntry (writing : ContentRecord.t) : Entry.t :=
  Entry.mk "curated_writing" (ContentRecord.id writing)
    (ContentRecord.title writing)
    (JS.orEmpty (ContentRecord.excerpt writing))
    (Some (JS.orEmpty (ContentRecord.author writing)))
    None None None None
    (JS.orNil (ContentRecord.tags writing))
    "Curated Writings"
    ("/works/curated/writings/"
       +:+ JS.interpolate (ContentRecord.collection writing))
    writing.

Definition curatedCinemaEntry (item : ContentRecord.t) : Entry.t :=
  Entry.mk "curated_cinema" (ContentRecord.id item) (ContentRecord.title item)
    (JS.orEmpty (ContentRecord.excerpt item))
    None
    (Some (JS.orEmpty (ContentRecord.director item)))
    None None None
    (JS.orNil (ContentRecord.genres item))
    "Curated Cinema"
    ("/works/curated/cinema/"
       +:+ JS.interpolate (ContentRecord.collection item))
    item.

Definition curatedMusicEntry (item : ContentRecord.t) : Entry.t :=
  Entry.mk "curated_music" (ContentRecord.id item) (ContentRecord.title item)
    (JS.orEmpty (ContentRecord.excerpt item))
    None None None None
    (Some (JS.orEmpty (ContentRecord.artist item)))
    (JS.orNil (ContentRecord.genres item))
    "Curated Music"
    ("/works/curated/music/"
       +:+ JS.interpolate (ContentRecord.collection item))
    item.

Definition curatedMiscEntry (item : ContentRecord.t) : Entry.t :=
  Entry.mk "curated_misc" (ContentRecord.id item) (ContentRecord.title item)
    (JS.orEmpty (ContentRecord.excerpt item))
    None None
    (Some (JS.orEmpty (ContentRecord.creator item)))
    None None
    (JS.orNil (ContentRecord.tags item))
    "Curated Content"
    ("/works/curated/misc/"
       +:+ JS.interpolate (ContentRecord.collection item))
    item.

(** One block of [buildSearchIndex]: push an entry for every record of a
    collection that is there. *)
Definition indexCollection (entry : ContentRecord.t -> Entry.t)
    (c : option (option (list ContentRecord.t))) (index : list Entry.t)
  : list Entry.t :=
  match Window.collection c with
  | Some records => JS.forEachPush entry records index
  | None => index
  end.

(** [buildSearchIndex()] *)
Definition buildSearchIndex (win : Window.t) (s : t) : t :=
  let index := [] in
  let index := indexCollection photoEntry (Window.photography win) index in
  let index := indexCollection writingEntry (Window.writings win) index in
  let index := indexCollection trackEntry (Window.music win) index in
  let index := indexCollection projectEntry (Window.projects win) index in
  let index :=
    indexCollection curatedWritingEntry (Window.curatedWritings win) index in
  let index :=
    indexCollection curatedCinemaEntry (Window.curatedCinema win) index in
  let index :=
    indexCollection curatedMusicEntry (Window.curatedMusic win) index in
  let index :=
    indexCollection curatedMiscEntry (Window.curatedMisc win) index in
  mk index true (isSearchOpen s) (currentResults s) (selectedResultIndex s)
     (elements s).

(** [field && field.toLowerCase().includes(normalizedQuery)] *)
Definition optionalMatch (normalizedQuery : string) (field : option string)
  : bool :=
  JS.truthy field
  && JS.includes normalizedQuery (JS.toLowerCase (JS.orEmpty field)).

(** The body of the loop of [search]: the score of one entry. *)
Definition scoreOf (normalizedQuery : string) (item : Entry.t) : Z :=
  let score := 0%Z in
  let score :=
    if JS.includes normalizedQuery (JS.toLowerCase (Entry.title item))
    then (score + 10)%Z else score in
  let score :=
    if JS.includes normalizedQuery (JS.toLowerCase (Entry.description item))
    then (score + 5)%Z else score in
  let score :=
    if optionalMatch normalizedQuery (Entry.author item)
    then (score + 7)%Z else score in
  let score :=
    if optionalMatch normalizedQuery (Entry.director item)
    then (score + 7)%Z else score in
  let score :=
    if optionalMatch normalizedQuery (Entry.creator item)
    then (score + 7)%Z else score in
  let score :=
    if optionalMatch normalizedQuery (Entry.location item)
    then (score + 6)%Z else score in
  let score :=
    fold_left
      (fun score tag =>
         if JS.includes normalizedQuery (JS.toLowerCase tag)
         then (score + 8)%Z else score)
      (Entry.tags item) score in
  let score :=
    if JS.includes normalizedQuery (JS.toLowerCase (Entry.contentType item))
    then (score + 3)%Z else score in
  score.

(** [!query || query.trim().length === 0] *)
Definition blank (query : string) : bool :=
  String.eqb query "" || Nat.eqb (String.length (JS.trim query)) 0.

(** [search(query)] *)
Definition search (s : t) (query : string) : list Result.t :=
  if blank query then []
  else
    let normalizedQuery := JS.trim (JS.toLowerCase query) in
    let results :=
      fold_left
        (fun results item =>
           let score := scoreOf normalizedQuery item in
           if (0 <? score)%Z then results ++ [Result.mk item score]
           else results)
        (searchIndex s) [] in
    JS.sort (fun a b => (Result.score b - Result.score a)%Z) results.

(** [renderResults(results)] *)
Definition renderResults (results : list Result.t) (s : t) : list effect :=
  if Elements.results (elements s)
  then [RenderResults (List.length results)] else [].

(** [scrollToSelected()]: [this.elements.results] is read without a test. *)
Definition scrollToSelected (s : t) : list effect :=
  if Elements.results (elements s)
  then [ScrollToSelected] else [UncaughtTypeError].

(** [handleSearch(query)] *)
Definition handleSearch (query : string) (s : t) : t * list effect :=
  if blank query then
    let s' := mk (searchIndex s) (isIndexed s) (isSearchOpen s) []
                 (selectedResultIndex s) (elements s) in
    (s', renderResults [] s')
  else
    let results := search s query in
    let s' := mk (searchIndex s) (isIndexed s) (isSearchOpen s) results 0
                 (elements s) in
    (s', renderResults results s').

(** [openSearch()] *)
Definition openSearch (s : t) : t * list effect :=
  if negb (Elements.overlay (elements s)) then (s, [])
  else
    let s' := mk (searchIndex s) (isIndexed s) true [] 0 (elements s) in
    (s',
     OverlayShow
       :: (if Elements.input (elements s) then [FocusSearchInput] else [])
       ++ renderResults [] s').

(** [closeSearch()] *)
Definition closeSearch (s : t) : t * list effect :=
  if negb (Elements.overlay (elements s)) then (s, [])
  else
    (mk (searchIndex s) (isIndexed s) false (currentResults s)
        (selectedResultIndex s) (elements s),
     [OverlayHide]).

(** [toggleSearch()] *)
Definition toggleSearch (s : t) : t * list effect :=
  if isSearchOpen s then closeSearch s else openSearch s.

(** [getResultMetadata(result)] *)
Definition getResultMetadata (result : Result.t) : string :=
  let item := Result.item result in
  if JS.truthy (Entry.author item)
  then "by " +:+ JS.orEmpty (Entry.author item)
  else if JS.truthy (Entry.director item)
  then "directed by " +:+ JS.orEmpty (Entry.director item)
  else if JS.truthy (Entry.creator item)
  then "by " +:+ JS.orEmpty (Entry.creator item)
  else if JS.truthy (Entry.artist item)
  then "by " +:+ JS.orEmpty (Entry.artist item)
  else if JS.truthy (Entry.location item)
  then JS.orEmpty (Entry.location item)
  else "".

(** [truncate(text, maxLength)], for a length that is a natural number. *)
Definition truncate (text : string) (maxLength : nat) : string :=
  if Nat.leb (String.length text) maxLength then text
  else String.substring 0 maxLength text +:+ "...".

(** [this.currentResults[index]] *)
Definition resultAt (s : t) (index : Z) : option Result.t :=
  if (index <? 0)%Z then None
  else nth_error (currentResults s) (Z.to_nat index).

Section WithWindow.
Context (win : Window.t).

(** The controller that [openResultInLightbox] calls for a type. *)
Definition lightboxController (type : string) : option controller :=
  if String.eqb type "photo" then Some PhotographyController
  else if String.eqb type "writing" then Some WritingsController
  else if String.eqb type "music" then Some MusicController
  else if String.eqb type "project" then Some ProjectsController
  else if String.eqb type "curated_writing"
       then Some CuratedWritingsController
  else if String.eqb type "curated_cinema"
       then Some CuratedCinemaController
  else if String.eqb type "curated_music" then Some CuratedMusicController
  else if String.eqb type "curated_misc" then Some CuratedMiscController
  else None.

(** [openResultInLightbox(result)] *)
Definition openResultInLightbox (result : Result.t) : list effect :=
  if negb (Window.lightbox win) then []
  else
    let type := Entry.type (Result.item result) in
    match lightboxController type with
    | Some c =>
        if Window.defined win c
        then [OpenResultInLightbox type (Entry.id (Result.item result))]
        else []
    | None => []
    end.

(** [selectResult(index)]; [window.Router] is the router of this
    program. *)
Definition selectResult (index : Z) (s : t) (r : Router.t)
  : t * Router.t * list effect :=
  match resultAt s index with
  | None => (s, r, [])
  | Some result =>
      let '(r', navigation) :=
        if negb (String.eqb (Entry.route (Result.item result)) "")
        then Router.navigateTo win (Entry.route (Result.item result))
               true None r
        else (r, []) in
      let '(s', closing) := closeSearch s in
      (s', r', navigation ++ closing ++ openResultInLightbox result)
  end.

(** [handleKeyboardNavigation(event)], for the key of the event. *)
Definition handleKeyboardNavigation (key : string) (s : t) (r : Router.t)
  : t * Router.t * list effect :=
  if Nat.eqb (List.length (currentResults s)) 0 then (s, r, [])
  else if String.eqb key "ArrowDown" then
    let s' := mk (searchIndex s) (isIndexed s) (isSearchOpen s)
                (currentResults s)
                (Z.min (selectedResultIndex s + 1)
                       (Z.of_nat (List.length (currentResults s)) - 1))
                (elements s) in
    (s', r,
     PreventDefault :: renderResults (currentResults s') s'
       ++ scrollToSelected s')
  else if String.eqb key "ArrowUp" then
    let s' := mk (searchIndex s) (isIndexed s) (isSearchOpen s)
                (currentResults s)
                (Z.max (selectedResultIndex s - 1) 0)
                (elements s) in
    (s', r,
     PreventDefault :: renderResults (currentResults s') s'
       ++ scrollToSelected s')
  else if String.eqb key "Enter" then
    let '(s', r', effects) := selectResult (selectedResultIndex s) s r in
    (s', r', PreventDefault :: effects)
  else if String.eqb key "Escape" then
    let '(s', effects) := closeSearch s in
    (s', r, PreventDefault :: effects)
  else (s, r, []).

(** One call of a method that changes the search system: the index is
    built, the overlay is opened, closed or toggled, the query is edited, a
    key is pressed in the search input, or a result is clicked. *)
Inductive step : t -> t -> Prop :=
| step_buildSearchIndex s :
    step s (buildSearchIndex win s)
| step_openSearch s :
    step s (fst (openSearch s))
| step_closeSearch s :
    step s (fst (closeSearch s))
| step_toggleSearch s :
    step s (fst (toggleSearch s))
| step_handleSearch query s :
    step s (fst (handleSearch query s))
| step_handleKeyboardNavigation key s r :
    step s (fst (fst (handleKeyboardNavigation key s r)))
| step_selectResult index s r :
    step s (fst (fst (selectResult index s r))).

End WithWindow.

End SearchSystem.

(** ** The application: the keyboard *)

Module App.

Record World := mkWorld {
  router : Router.t;
  search : SearchSystem.t;
  log : list effect
}.

(** The element a key event is fired at. The search input is an [INPUT]
    element; any other element is known by its tag name. *)
Inductive target :=
| SearchInput
| Element (tagName : string).

Definition tagName (t : target) : string :=
  match t with
  | SearchInput => "INPUT"
  | Element tag => tag
  end.

Record KeyEvent := mkKey {
  key : string;
  on : target;
  ctrlKey : bool;
  metaKey : bool;
  altKey : bool
}.

(** A bare key pressed on an element. *)
Definition press (key : string) (on : target) : KeyEvent :=
  mkKey key on false false false.

Definition unmodified (e : KeyEvent) : bool :=
  negb (ctrlKey e) && negb (metaKey e) && negb (altKey e).

Section WithWindow.
Context (win : Window.t).

(** The [keydown] listener that [setupEventListeners] of the search
    system puts on the search input. *)
Definition onSearchInputKeydown (e : KeyEvent) (w : World) : World :=
  let '(s, r, effects) :=
    SearchSystem.handleKeyboardNavigation win (key e) (search w)
      (router w) in
  mkWorld r s (log w ++ effects).

(** The [keydown] listener that [setupKeyboardShortcuts] puts on the
    document. The result is [None] where [goBack] has no route to go to
    (its parent is a function): the router then leaves this model. *)
Definition onDocumentKeydown (e : KeyEvent) (w : World) : option World :=
  let k := JS.toLowerCase (key e) in
  let say (effects : list effect) :=
    Some (mkWorld (router w) (search w) (log w ++ effects)) in
  if String.eqb (tagName (on e)) "INPUT"
     || String.eqb (tagName (on e)) "TEXTAREA" then Some w
  else if SearchSystem.isSearchOpen (search w) then
    if String.eqb k "escape" then
      let '(s, effects) := SearchSystem.closeSearch (search w) in
      Some (mkWorld (router w) s (log w ++ PreventDefault :: effects))
    else Some w
  else if String.eqb k "escape" then say [PreventDefault; HideSitemap]
  else if String.eqb k "p" then
    if unmodified e then say [PreventDefault; ToggleSitemap] else Some w
  else if String.eqb k "b" then
    if unmodified e then
      match Router.goBack win (router w) with
      | Some (r, effects) =>
          Some (mkWorld r (search w) (log w ++ PreventDefault :: effects))
      | None => None
      end
    else Some w
  else if String.eqb k "h" then
    if unmodified e then
      let '(r, effects) := Router.navigateTo win "" true None (router w) in
      Some (mkWorld r (search w) (log w ++ PreventDefault :: effects))
    else Some w
  else if String.eqb k "t" then
    if unmodified e then
      say (PreventDefault ::
             if Window.themeManager win then [ToggleTheme] else [])
    else Some w
  else if String.eqb k "/" then
    if unmodified e then
      let '(s, effects) := SearchSystem.openSearch (search w) in
      Some (mkWorld (router w) s (log w ++ PreventDefault :: effects))
    else Some w
  else if String.eqb k "arrowleft" then
    if Window.contentLoader win then say [PreventDefault; PreviousPhoto]
    else Some w
  else if String.eqb k "arrowright" then
    if Window.contentLoader win then say [PreventDefault; NextPhoto]
    else Some w
  else Some w.

(** A [keydown] event: the listener of its target runs first (the search
    input has one when [cacheElements] found it), then the event bubbles
    to the document; no listener stops the propagation. *)
Definition keydown (e : KeyEvent) (w : World) : option World :=
  let w1 :=
    match on e with
    | SearchInput =>
        if SearchSystem.Elements.input (SearchSystem.elements (search w))
        then onSearchInputKeydown e w else w
    | Element _ => w
    end in
  onDocumentKeydown e w1.

(** [SearchSystem.openSearch()] on the world. *)
Definition openSearch (w : World) : World :=
  let '(s, effects) := SearchSystem.openSearch (search w) in
  mkWorld (router w) s (log w ++ effects).

End WithWindow.

(** A list item of the sitemap: a button that navigates to [link], or a
    plain label when the node has no route; a description when the node has
    one; a sublist when the node has children. *)
#[warnings="-register-all"]
Inductive SitemapItem :=
| Item (label : string) (link : option string) (description : bool)
       (sublist : option (list SitemapItem)).

(** [createSitemapItem(node)]: [None] is [null]. *)
Fixpoint createSitemapItem (node : Router.NavigationNode)
  : option SitemapItem :=
  match node with
  | Router.Node label route description children =>
      if String.eqb label "" then None
      else
        Some (Item label route description
                (match children with
                 | [] => None
                 | _ :: _ =>
                     Some ((fix each (nodes : list Router.NavigationNode)
                              : list SitemapItem :=
                              match nodes with
                              | [] => []
                              | child :: rest =>
                                  match createSitemapItem child with
                                  | Some childItem => childItem :: each rest
                                  | None => each rest
                                  end
                              end) children)
                 end))
  end.

(** The list that [generateSitemap] builds from the navigation tree. *)
Definition generateSitemap : list SitemapItem :=
  flat_map
    (fun node =>
       match createSitemapItem node with
       | Some listItem => [listItem]
       | None => []
       end)
    Router.navigationTree.

(** The routes of the buttons of a sitemap, in document order. *)
Fixpoint links (item : SitemapItem) : list string :=
  match item with
  | Item _ link _ sublist =>
      match link with Some route => [route] | None => [] end
      ++ match sublist with
         | Some items => flat_map links items
         | None => []
         end
  end.

End App.

(** ** The scoring rule as the specification words it *)

Module SearchSpec.

(** The normalized query is a substring of the lowercased field. *)
Definition contains (q field : string) : bool :=
  JS.includes q (JS.toLowerCase field).

(** An optional field counts when it is there and contains the query. *)
Definition optional (q : string) (field : option string) : bool :=
  match field with
  | Some v => contains q v
  | None => false
  end.

Definition weight (w : Z) (b : bool) : Z := if b then w else 0%Z.

Definition matchingTags (q : string) (tags : list string) : nat :=
  List.length (List.filter (contains q) tags).

(** title +10, description +5, author, director and creator +7 each,
    location +6, +8 per matching tag, contentType +3. *)
Definition score (q : string) (item : SearchSystem.Entry.t) : Z :=
  (weight 10 (contains q (SearchSystem.Entry.title item))
   + weight 5 (contains q (SearchSystem.Entry.description item))
   + weight 7 (optional q (SearchSystem.Entry.author item))
   + weight 7 (optional q (SearchSystem.Entry.director item))
   + weight 7 (optional q (SearchSystem.Entry.creator item))
   + weight 6 (optional q (SearchSystem.Entry.location item))
   + 8 * Z.of_nat (matchingTags q (SearchSystem.Entry.tags item))
   + weight 3 (contains q (SearchSystem.Entry.contentType item)))%Z.

(** The index entries of positive score, each with its score, in the order
    of the index. *)
Definition positives (q : string) (index : list SearchSystem.Entry.t)
  : list SearchSystem.Result.t :=
  map (fun item => SearchSystem.Result.mk item (SearchSystem.scoreOf q item))
      (List.filter (fun item => (0 <? SearchSystem.scoreOf q item)%Z) index).

(** The (type, id) pair of an entry. *)
Definition key (item : SearchSystem.Entry.t) : string * string :=
  (SearchSystem.Entry.type item, SearchSystem.Entry.id item).

(** The records of a collection, none when the controller or the
    collection is absent. *)
Definition records (c : option (option (list ContentRecord.t)))
  : list ContentRecord.t :=
  JS.orNil (Window.collection c).

(** A record with another artist, and every other field as it is. *)
Definition withArtist (artist : option string) (record : ContentRecord.t)
  : ContentRecord.t :=
  ContentRecord.mk (ContentRecord.id record) (ContentRecord.title record)
    (ContentRecord.filename record) (ContentRecord.description record)
    (ContentRecord.excerpt record) (ContentRecord.location record)
    (ContentRecord.author record) (ContentRecord.director record)
    artist
    (ContentRecord.creator record) (ContentRecord.collection record)
    (ContentRecord.tags record) (ContentRecord.genres record)
    (ContentRecord.technologies record).

(** The eight blocks of [buildSearchIndex], in their order: the controller,
    the entry written for a record and the collection read. *)
Definition builders
  : list (controller * (ContentRecord.t -> SearchSystem.Entry.t)
          * (Window.t -> option (option (list ContentRecord.t)))) :=
  [ (PhotographyController, SearchSystem.photoEntry, Window.photography);
    (WritingsController, SearchSystem.writingEntry, Window.writings);
    (MusicController, SearchSystem.trackEntry, Window.music);
    (ProjectsController, SearchSystem.projectEntry, Window.projects);
    (CuratedWritingsController, SearchSystem.curatedWritingEntry,
     Window.curatedWritings);
    (CuratedCinemaController, SearchSystem.curatedCinemaEntry,
     Window.curatedCinema);
    (CuratedMusicController, SearchSystem.curatedMusicEntry,
     Window.curatedMusic);
    (CuratedMiscController, SearchSystem.curatedMiscEntry,
     Window.curatedMisc) ].

(** The selection is in order: the selected index is not negative, it is
    below the number of results when there are results, and the overlay
    exists when the search surface is open. *)
Definition selectionOk (els : SearchSystem.Elements.t) (s : SearchSystem.t)
  : Prop :=
  SearchSystem.elements s = els
  /\ (0 <= SearchSystem.selectedResultIndex s)%Z
  /\ (SearchSystem.currentResults s <> [] ->
      (SearchSystem.selectedResultIndex s
       <= Z.of_nat (List.length (SearchSystem.currentResults s)) - 1)%Z)
  /\ (SearchSystem.isSearchOpen s = true ->
      SearchSystem.Elements.overlay els = true).

End SearchSpec.

(** ** Sample data *)

Module Sample.

(** A page on which every controller, the lightbox and the content loader
    are defined, with a theme manager that has a [toggle] method, and on
    which no collection has any record yet. *)
Definition page : Window.t :=
  Window.mk true true true true
    (Some (Some [])) (Some (Some [])) (Some (Some [])) (Some (Some []))
    (Some (Some [])) (Some (Some [])) (Some (Some [])) (Some (Some [])).

(** The router after a click on the WORKS wall of the entrance. *)
Definition atWorks : Router.t :=
  fst (Router.navigateTo page "/works" true (Some "left") Router.initial).

(** The router in the curated music room. *)
Definition atCuratedMusic : Router.t :=
  Router.mk "/works/curated/music" "/works/curated" None
    [""; "/works"; "/works/curated"; "/works/curated/music"].

Definition nightWalk : ContentRecord.t :=
  ContentRecord.mk "p1" "Night Walk" None (Some "a street photo") None
    (Some "Chennai") None None None None (Some "street")
    (Some ["urban"; "night"]) None None.

Definition harbour : ContentRecord.t :=
  ContentRecord.mk "p2" "Harbour" None (Some "boats at night") None
    None None None None None (Some "street") (Some ["sea"]) None None.

Definition nightEssay : ContentRecord.t :=
  ContentRecord.mk "w1" "On walking" (Some "walking.md") None
    (Some "a long night on foot") None None None None None None
    (Some ["essay"]) None None.

Definition kindOfBlue : ContentRecord.t :=
  ContentRecord.mk "m1" "Kind of Blue" None None (Some "modal jazz") None
    None None (Some "Miles Davis") None (Some "albums") None
    (Some ["jazz"]) None.

(** A page with two photographs, one writing and one curated album. *)
Definition library : Window.t :=
  Window.mk true true true true
    (Some (Some [nightWalk; harbour])) (Some (Some [nightEssay]))
    (Some (Some [])) (Some None)
    None (Some (Some [])) (Some (Some [kindOfBlue])) (Some (Some [])).

Definition elements : SearchSystem.Elements.t :=
  SearchSystem.Elements.mk true true true true.

(** The search system once [init] has built the index of [library]. *)
Definition indexed : SearchSystem.t :=
  SearchSystem.buildSearchIndex library (SearchSystem.initial elements).

(** Three results, the second selected. *)
Definition browsing : SearchSystem.t :=
  SearchSystem.mk (SearchSystem.searchIndex indexed) true true
    (SearchSystem.search indexed "night") 1 elements.

(** The page just after the user has opened the search overlay. *)
Definition searchOpened : App.World :=
  App.openSearch
    (App.mkWorld Router.initial (SearchSystem.initial elements) []).

End Sample.

(** * Properties of the router *)

Example split_route :
  JS.split "/" "/works/curated/music/albums"
  = [""; "works"; "curated"; "music"; "albums"].
Proof. reflexivity. Qed.

Example split_home : JS.split "/" "" = [""].
Proof. reflexivity. Qed.

Example trim_query : JS.trim (JS.toLowerCase "  Night Walk  ") = "night walk".
Proof. reflexivity. Qed.

(** An exact controller route is in the route table and is handed to its
    controller. *)
Example renderRoute_curated_music r :
  Router.renderRoute Sample.page "/works/curated/music" r
  = [ ClearAllWalls; ControllerRender CuratedMusicController None;
      UpdateBackButton; UpdateHierarchyIndicator "/works/curated/music" ].
Proof. reflexivity. Qed.

(** From [/works] to [/works/personal] the view class is the forward class;
    the way back is not forward. *)
Example forward_then_back :
  let '(r1, _) := Router.navigateTo Sample.page "/works" true None
                    Router.initial in
  let '(r2, _) := Router.navigateTo Sample.page "/works/personal" true None
                    r1 in
  let '(r3, _) := Router.navigateTo Sample.page "/works" true None r2 in
  Router.getViewClass r2 = "move-forward" /\ Router.getViewClass r3 = "".
Proof. split; reflexivity. Qed.

Lemma split_not_nil sep s : JS.split sep s <> [].
Proof.
  destruct s as [|c s]; simpl; [discriminate|].
  destruct (Ascii.eqb c sep); [discriminate|].
  destruct (JS.split sep s); discriminate.
Qed.

Lemma depth_pos route : (1 <= Router.depth route)%nat.
Proof.
  unfold Router.depth.
  pose proof (split_not_nil "/" route) as H.
  destruct (JS.split "/" route); [congruence | simpl; lia].
Qed.

Lemma depth_home : Router.depth "" = 1%nat.
Proof. reflexivity. Qed.

(** A view class that [getViewClass] returns is the forward class exactly
    when [isForwardNavigation] holds. *)
Lemma getViewClass_forward r :
  Router.getViewClass r = "move-forward" <-> Router.isForwardNavigation r = true.
Proof.
  unfold Router.getViewClass.
  destruct (Router.isForwardNavigation r); [tauto|].
  split; [|discriminate].
  repeat match goal with
         | |- context [if ?b then _ else _] => destruct b
         end; discriminate.
Qed.

(** No own key of the route table starts with a dynamic prefix, and no name
    of [Object.prototype] does: such a route has no configuration. *)
Lemma routes_lookup_keys route config :
  Router.routes !! route = Some config ->
  In route [ ""; "/about"; "/works"; "/works/personal";
             "/works/personal/writings"; "/works/personal/photography";
             "/works/curated"; "/works/curated/writings";
             "/works/curated/cinema"; "/works/curated/music";
             "/works/curated/misc"; "/works/personal/music";
             "/works/personal/projects" ].
Proof.
  intros H. unfold Router.routes in H.
  apply elem_of_list_to_map_2 in H.
  repeat (apply elem_of_cons in H as [H|H];
          [injection H as -> _; simpl; tauto|]).
  by apply elem_of_nil in H.
Qed.

Lemma dynamic_route_has_no_config prefix route :
  In prefix Router.dynamicPrefixes ->
  JS.startsWith prefix route = true ->
  Router.routeConfigOf route = None.
Proof.
  intros Hp Hs. unfold Router.routeConfigOf.
  destruct (Router.routes !! route) as [config|] eqn:E.
  - apply routes_lookup_keys in E. exfalso.
    simpl in Hp, E.
    repeat (destruct Hp as [<-|Hp]; [
      repeat (destruct E as [<-|E]; [vm_compute in Hs; discriminate|]);
      exact E |]).
    exact Hp.
  - destruct (JS.inherited route) eqn:I; [|reflexivity]. exfalso.
    unfold JS.inherited in I. apply existsb_exists in I as (k & Hk & Heq).
    apply String.eqb_eq in Heq. subst k.
    simpl in Hp, Hk.
    repeat (destruct Hp as [<-|Hp]; [
      repeat (destruct Hk as [<-|Hk]; [vm_compute in Hs; discriminate|]);
      exact Hk |]).
    exact Hp.
Qed.

(** Every route under a dynamic prefix is rendered as the "room not found"
    panel, whatever controllers are defined. *)
Lemma renderRoute_dynamic win prefix route r :
  In prefix Router.dynamicPrefixes ->
  JS.startsWith prefix route = true ->
  Router.renderRoute win route r = [Show404].
Proof.
  intros Hp Hs. unfold Router.renderRoute.
  by rewrite (dynamic_route_has_no_config prefix route Hp Hs).
Qed.

(** C1, evaluated on the code: on a page where the photography controller
    is defined, [handleControllerRoute] would hand the collection route
    [/photography/street] to that controller with the collection
    [street], but [renderRoute] looks the route up in the route table first,
    finds no entry and shows the "room not found" panel: no controller is
    called. *)
Theorem renderRoute_collection_route_is_not_found :
  Router.handleControllerRoute Sample.page "/photography/street"
    = Some [ ControllerRender PhotographyController (Some "street");
             UpdateBackButton;
             UpdateHierarchyIndicator "/photography/street" ]
  /\ Router.routeConfigOf "/photography/street" = None
  /\ forall r, Router.renderRoute Sample.page "/photography/street" r
               = [Show404].
Proof.
  split; [reflexivity|]. split; [reflexivity|].
  intros r. reflexivity.
Qed.

(** C2 as stated fails: after the first click from the entrance (previous
    route [''], one segment) to [/works] (two segments) the segment count
    has grown, and the view class is not the forward class. *)
Lemma getViewClass_from_home_not_forward :
  Router.previousRoute Sample.atWorks = ""
  /\ Router.currentRoute Sample.atWorks = "/works"
  /\ (Router.depth (Router.previousRoute Sample.atWorks)
      < Router.depth (Router.currentRoute Sample.atWorks))%nat
  /\ Router.getViewClass Sample.atWorks <> "move-forward".
Proof.
  repeat split; try reflexivity.
  - vm_compute. lia.
  - vm_compute. discriminate.
Qed.

(** C2, amended: the view class is the forward class if and only if the
    previous route is not the home route [''] and the current route has
    strictly more '/'-separated segments than the previous one. *)
Theorem getViewClass_forward_iff r :
  Router.getViewClass r = "move-forward"
  <-> Router.previousRoute r <> ""
      /\ (Router.depth (Router.previousRoute r)
          < Router.depth (Router.currentRoute r))%nat.
Proof.
  rewrite getViewClass_forward. unfold Router.isForwardNavigation.
  destruct (String.eqb_spec (Router.previousRoute r) "") as [Hp|Hp]; simpl.
  { split; [discriminate | intros [H _]; congruence]. }
  destruct (String.eqb_spec (Router.currentRoute r) "") as [Hc|Hc].
  { split; [discriminate|]. intros [_ H]. rewrite Hc, depth_home in H.
    pose proof (depth_pos (Router.previousRoute r)). lia. }
  rewrite Nat.ltb_lt. tauto.
Qed.

(** [goBack] is [navigateTo(parent, true)] for the parent that
    [getParentRoute] returns. *)
Lemma goBack_navigates win r parent :
  Router.getParentRoute (Router.currentRoute r) = Some parent ->
  Router.goBack win r = Some (Router.navigateTo win parent true None r).
Proof. unfold Router.goBack. by intros ->. Qed.






(** X9: a route without a configuration is rendered as the "room not
    found" panel and becomes the current route; the route that was current
    becomes the previous route, and no title is set. *)
Lemma navigateTo_unknown win route addToHistory clickedWall r :
  Router.routeConfigOf route = None ->
  Router.navigateTo win route addToHistory clickedWall r
  = (Router.mk route (Router.currentRoute r) clickedWall
       (Router.navigationHistory r ++ [route]),
     (if addToHistory then [PushState route] else []) ++ [Show404]).
Proof.
  intros H. unfold Router.navigateTo, Router.renderRoute. by rewrite H.
Qed.

(** C8, evaluated on the code: the route [toString] (the fragment
    [#toString]) has no entry among the own keys of the route table and
    starts with no dynamic prefix, yet [this.routes[route]] finds the
    function inherited from [Object.prototype]; [navigateTo] sets the title
    to [undefined], clears the walls and renders a room without walls: the
    "room not found" panel is not shown. *)
Theorem navigateTo_inherited_key_shows_no_404 win :
  Router.routes !! "toString" = None
  /\ Forall (fun prefix => JS.startsWith prefix "toString" = false)
            Router.dynamicPrefixes
  /\ Router.navigateTo win "toString" false None Router.initial
     = (Router.mk "toString" "" None ["toString"],
        [ SetDocumentTitle None; ClearAllWalls;
          RenderRoom RouteConfig.noFields "" ])
  /\ ~ In Show404
          (snd (Router.navigateTo win "toString" false None Router.initial)).
Proof.
  split; [reflexivity|].
  split; [repeat constructor|].
  assert (E : Router.navigateTo win "toString" false None Router.initial
     = (Router.mk "toString" "" None ["toString"],
        [ SetDocumentTitle None; ClearAllWalls;
          RenderRoom RouteConfig.noFields "" ])) by reflexivity.
  split; [exact E|].
  rewrite E. simpl. intros [H|[H|[H|[]]]]; discriminate.
Qed.

(** * Properties of the search system *)

Example search_blank s :
  SearchSystem.search s "" = [] /\ SearchSystem.search s "   " = [].
Proof. split; reflexivity. Qed.

Example search_night_sample :
  map (fun r => (SearchSystem.Entry.id (SearchSystem.Result.item r),
                 SearchSystem.Result.score r))
      (SearchSystem.search Sample.indexed "  Night ")
  = [("p1", 18%Z); ("p2", 5%Z); ("walking.md", 5%Z)].
Proof. reflexivity. Qed.

(** *** Strings *)

Lemma includes_empty q : q <> "" -> JS.includes q "" = false.
Proof. destruct q; [congruence | reflexivity]. Qed.

Lemma isSpace_lowerUnit c : JS.isSpace (JS.lowerUnit c) = JS.isSpace c.
Proof. destruct c as [[] [] [] [] [] [] [] []]; reflexivity. Qed.

Lemma trimStart_toLowerCase s :
  JS.trimStart (JS.toLowerCase s) = JS.toLowerCase (JS.trimStart s).
Proof.
  induction s as [|c s IH]; simpl; [reflexivity|].
  rewrite isSpace_lowerUnit. destruct (JS.isSpace c); [exact IH | reflexivity].
Qed.

Lemma trimEnd_toLowerCase s :
  JS.trimEnd (JS.toLowerCase s) = JS.toLowerCase (JS.trimEnd s).
Proof.
  induction s as [|c s IH]; simpl; [reflexivity|].
  rewrite IH, isSpace_lowerUnit.
  destruct (JS.trimEnd s); simpl; [|reflexivity].
  destruct (JS.isSpace c); reflexivity.
Qed.

(** Trimming and lowercasing commute. *)
Lemma trim_toLowerCase s :
  JS.trim (JS.toLowerCase s) = JS.toLowerCase (JS.trim s).
Proof. unfold JS.trim. by rewrite trimStart_toLowerCase, trimEnd_toLowerCase. Qed.

Lemma toLowerCase_empty s : JS.toLowerCase s = "" -> s = "".
Proof. destruct s; [reflexivity | discriminate]. Qed.

(** A query is blank exactly when its normal form is empty. *)
Lemma blank_normalized query :
  SearchSystem.blank query = false <-> JS.trim (JS.toLowerCase query) <> "".
Proof.
  rewrite trim_toLowerCase. unfold SearchSystem.blank.
  destruct (String.eqb_spec query "") as [->|Hq]; simpl.
  { split; [discriminate | intros H; by destruct H]. }
  destruct (JS.trim query) eqn:E; simpl.
  - split; [discriminate | intros H; by destruct H].
  - split; [discriminate | reflexivity].
Qed.

(** *** The score *)

Lemma optionalMatch_spec q field :
  q <> "" -> SearchSystem.optionalMatch q field = SearchSpec.optional q field.
Proof.
  intros Hq. unfold SearchSystem.optionalMatch, SearchSpec.optional.
  destruct field as [v|]; simpl; [|reflexivity].
  destruct (String.eqb_spec v "") as [->|_]; [|reflexivity].
  unfold SearchSpec.contains. change (JS.toLowerCase "") with "".
  by rewrite includes_empty.
Qed.

Lemma tags_fold q tags (score : Z) :
  fold_left
    (fun score tag =>
       if JS.includes q (JS.toLowerCase tag) then (score + 8)%Z else score)
    tags score
  = (score + 8 * Z.of_nat (SearchSpec.matchingTags q tags))%Z.
Proof.
  unfold SearchSpec.matchingTags.
  revert score. induction tags as [|tag tags IH]; intros score; simpl.
  - lia.
  - rewrite IH. unfold SearchSpec.contains at 2.
    destruct (JS.includes q (JS.toLowerCase tag)); simpl; lia.
Qed.

(** The score that the loop of [search] accumulates is the sum of the
    weights. *)
Lemma scoreOf_spec q item :
  q <> "" -> SearchSystem.scoreOf q item = SearchSpec.score q item.
Proof.
  intros Hq. unfold SearchSystem.scoreOf, SearchSpec.score.
  rewrite tags_fold, !(optionalMatch_spec q _ Hq).
  unfold SearchSpec.contains, SearchSpec.weight.
  repeat match goal with
         | |- context [if ?b then _ else _] => destruct b
         end; lia.
Qed.

Lemma weight_nonneg w b : (0 <= w)%Z -> (0 <= SearchSpec.weight w b)%Z.
Proof. destruct b; simpl; lia. Qed.

(** Title and tags alone bound the score from below. *)
Lemma score_title_tags q item :
  (SearchSpec.weight 10 (SearchSpec.contains q (SearchSystem.Entry.title item))
   + 8 * Z.of_nat (SearchSpec.matchingTags q (SearchSystem.Entry.tags item))
   <= SearchSpec.score q item)%Z.
Proof.
  unfold SearchSpec.score.
  pose proof (weight_nonneg 5
    (SearchSpec.contains q (SearchSystem.Entry.description item))).
  pose proof (weight_nonneg 7
    (SearchSpec.optional q (SearchSystem.Entry.author item))).
  pose proof (weight_nonneg 7
    (SearchSpec.optional q (SearchSystem.Entry.director item))).
  pose proof (weight_nonneg 7
    (SearchSpec.optional q (SearchSystem.Entry.creator item))).
  pose proof (weight_nonneg 6
    (SearchSpec.optional q (SearchSystem.Entry.location item))).
  pose proof (weight_nonneg 3
    (SearchSpec.contains q (SearchSystem.Entry.contentType item))).
  lia.
Qed.

(** *** The result list *)

Section Sorting.
Context {A : Type} (score : A -> Z).

Let compare (a b : A) : Z := (score b - score a)%Z.

Lemma insert_perm x l : Permutation (JS.insert compare x l) (x :: l).
Proof.
  induction l as [|y l IH]; simpl; [reflexivity|].
  destruct (compare x y <=? 0)%Z; [reflexivity|].
  rewrite IH. apply perm_swap.
Qed.

Lemma sort_perm l : Permutation (JS.sort compare l) l.
Proof.
  induction l as [|x l IH]; simpl; [reflexivity|].
  fold (JS.sort compare l). by rewrite insert_perm, IH.
Qed.

Lemma insert_sorted x l :
  StronglySorted (fun a b => (score b <= score a)%Z) l ->
  StronglySorted (fun a b => (score b <= score a)%Z) (JS.insert compare x l).
Proof.
  induction 1 as [|y l Hl IH Hy]; simpl.
  - repeat constructor.
  - destruct (Z.leb_spec (compare x y) 0) as [Hc|Hc]; unfold compare in Hc.
    + constructor; [by constructor|].
      constructor; [lia|].
      eapply Forall_impl; [exact Hy|]. simpl. intros; lia.
    + constructor; [exact IH|].
      eapply Permutation_Forall; [symmetry; apply insert_perm|].
      constructor; [lia | exact Hy].
Qed.

Lemma sort_sorted l :
  StronglySorted (fun a b => (score b <= score a)%Z) (JS.sort compare l).
Proof.
  induction l as [|x l IH]; simpl; [constructor|].
  by apply insert_sorted.
Qed.

(** Stability: among the elements of one score, sorting changes nothing. *)
Lemma filter_insert k x l :
  List.filter (fun a => (score a =? k)%Z) (JS.insert compare x l)
  = List.filter (fun a => (score a =? k)%Z) (x :: l).
Proof.
  induction l as [|y l IH]; simpl; [reflexivity|].
  destruct (Z.leb_spec (compare x y) 0) as [Hc|Hc]; unfold compare in Hc;
    [reflexivity|].
  simpl. rewrite IH. simpl.
  destruct (Z.eqb_spec (score x) k), (Z.eqb_spec (score y) k);
    try reflexivity.
  lia.
Qed.

Lemma filter_sort k l :
  List.filter (fun a => (score a =? k)%Z) (JS.sort compare l)
  = List.filter (fun a => (score a =? k)%Z) l.
Proof.
  induction l as [|x l IH]; simpl; [reflexivity|].
  fold (JS.sort compare l). rewrite filter_insert. simpl. by rewrite IH.
Qed.
End Sorting.

(** The loop of [search] keeps, in index order, the entries of positive
    score. *)
Lemma collect_results q index acc :
  fold_left
    (fun results item =>
       let score := SearchSystem.scoreOf q item in
       if (0 <? score)%Z then results ++ [SearchSystem.Result.mk item score]
       else results)
    index acc
  = acc ++ SearchSpec.positives q index.
Proof.
  unfold SearchSpec.positives.
  revert acc. induction index as [|item index IH]; intros acc; simpl.
  - by rewrite app_nil_r.
  - rewrite IH. destruct (0 <? SearchSystem.scoreOf q item)%Z; simpl.
    + by rewrite <- app_assoc.
    + reflexivity.
Qed.

(** [search] on a query that is not blank: the positive entries, sorted. *)
Lemma search_unfold s query :
  SearchSystem.blank query = false ->
  SearchSystem.search s query
  = JS.sort (fun a b => (SearchSystem.Result.score b
                         - SearchSystem.Result.score a)%Z)
      (SearchSpec.positives (JS.trim (JS.toLowerCase query))
         (SearchSystem.searchIndex s)).
Proof.
  intros Hb. unfold SearchSystem.search. rewrite Hb.
  by rewrite collect_results.
Qed.

(** The results are the entries of positive score, each with its score. *)
Lemma search_In s query result :
  SearchSystem.blank query = false ->
  In result (SearchSystem.search s query)
  <-> exists item,
        In item (SearchSystem.searchIndex s)
        /\ (0 < SearchSystem.scoreOf (JS.trim (JS.toLowerCase query)) item)%Z
        /\ result = SearchSystem.Result.mk item
             (SearchSystem.scoreOf (JS.trim (JS.toLowerCase query)) item).
Proof.
  intros Hb. rewrite (search_unfold s query Hb). unfold SearchSpec.positives.
  set (q := JS.trim (JS.toLowerCase query)).
  split.
  - intros H.
    eapply Permutation_in in H; [|apply sort_perm].
    apply in_map_iff in H as (item & <- & H).
    apply filter_In in H as [Hin Hpos].
    exists item. repeat split; [exact Hin | lia].
  - intros (item & Hin & Hpos & ->).
    eapply Permutation_in; [symmetry; apply sort_perm|].
    apply in_map_iff. exists item. split; [reflexivity|].
    apply filter_In. split; [exact Hin | lia].
Qed.

(** C3: for a normalized query that is not empty, the score that [search]
    computes for an entry is the sum of the weights of the fields that
    contain the query (title 10, description 5, author, director and
    creator 7 each, location 6, 8 for each matching tag, contentType 3);
    the results are exactly the entries whose sum is positive, each with its
    sum; and an entry titled "Night Walk", described as "a street photo" and
    tagged "urban" and "night" scores at least 18 for "night". *)
Theorem search_score s query :
  JS.trim (JS.toLowerCase query) <> "" ->
  (forall item,
     SearchSystem.scoreOf (JS.trim (JS.toLowerCase query)) item
     = SearchSpec.score (JS.trim (JS.toLowerCase query)) item)
  /\ (forall result,
        In result (SearchSystem.search s query)
        <-> exists item,
              In item (SearchSystem.searchIndex s)
              /\ (0 < SearchSpec.score (JS.trim (JS.toLowerCase query)) item)%Z
              /\ result = SearchSystem.Result.mk item
                   (SearchSpec.score (JS.trim (JS.toLowerCase query)) item))
  /\ (forall type id author director creator location artist contentType
             route data,
        (18 <= SearchSystem.scoreOf "night"
                 (SearchSystem.Entry.mk type id "Night Walk" "a street photo"
                    author director creator location artist
                    ["urban"; "night"] contentType route data))%Z).
Proof.
  intros Hq. split; [|split].
  - intros item. by apply scoreOf_spec.
  - intros result. rewrite search_In by (by apply blank_normalized).
    split; intros (item & Hin & Hpos & ->); exists item;
      rewrite scoreOf_spec in * by exact Hq; auto.
  - intros. rewrite scoreOf_spec by discriminate.
    etransitivity; [|apply score_title_tags]. simpl.
    vm_compute. discriminate.
Qed.

Lemma search_score_witness :
  JS.trim (JS.toLowerCase "  Night ") = "night"
  /\ SearchSystem.scoreOf "night" (SearchSystem.photoEntry Sample.nightWalk)
     = SearchSpec.score "night" (SearchSystem.photoEntry Sample.nightWalk)
  /\ SearchSpec.score "night" (SearchSystem.photoEntry Sample.nightWalk)
     = 18%Z.
Proof.
  split; [reflexivity|]. split; [|reflexivity].
  apply (proj1 (search_score Sample.indexed "  Night "
                  ltac:(vm_compute; discriminate))).
Defined.

(** C4: for a query that is not blank, every result has a positive score,
    the results are sorted by non-increasing score, and the results of any
    one score [k] are the index entries of score [k], in the order in which
    they stand in the index. *)
Theorem search_sorted_stable s query :
  SearchSystem.blank query = false ->
  Forall (fun r => (0 < SearchSystem.Result.score r)%Z)
         (SearchSystem.search s query)
  /\ StronglySorted
       (fun a b => (SearchSystem.Result.score b
                    <= SearchSystem.Result.score a)%Z)
       (SearchSystem.search s query)
  /\ forall k,
       List.filter (fun r => (SearchSystem.Result.score r =? k)%Z)
                   (SearchSystem.search s query)
       = List.filter (fun r => (SearchSystem.Result.score r =? k)%Z)
           (SearchSpec.positives (JS.trim (JS.toLowerCase query))
              (SearchSystem.searchIndex s)).
Proof.
  intros Hb. split; [|split].
  - apply List.Forall_forall. intros r Hr.
    apply (search_In s query r Hb) in Hr as (item & _ & Hpos & ->).
    exact Hpos.
  - rewrite (search_unfold s query Hb). apply sort_sorted.
  - intros k. rewrite (search_unfold s query Hb). apply filter_sort.
Qed.

Lemma search_sorted_stable_witness :
  SearchSystem.blank "night" = false
  /\ map SearchSystem.Result.score (SearchSystem.search Sample.indexed "night")
     = [18%Z; 5%Z; 5%Z]
  /\ Forall (fun r => (0 < SearchSystem.Result.score r)%Z)
            (SearchSystem.search Sample.indexed "night").
Proof.
  split; [reflexivity|]. split; [reflexivity|].
  apply (proj1 (search_sorted_stable Sample.indexed "night" eq_refl)).
Defined.

(** *** The index *)

Lemma forEachPush_map {A B : Type} (f : A -> B) l acc :
  JS.forEachPush f l acc = acc ++ map f l.
Proof.
  unfold JS.forEachPush. revert acc.
  induction l as [|x l IH]; intros acc; simpl.
  - by rewrite app_nil_r.
  - by rewrite IH, <- app_assoc.
Qed.

Lemma indexCollection_app entry c index :
  SearchSystem.indexCollection entry c index
  = index ++ map entry (SearchSpec.records c).
Proof.
  unfold SearchSystem.indexCollection, SearchSpec.records.
  destruct (Window.collection c); simpl.
  - apply forEachPush_map.
  - by rewrite app_nil_r.
Qed.

(** The index that [buildSearchIndex] leaves depends on the collections
    only: the entries of each collection, collection after collection. *)
Lemma buildSearchIndex_index win s :
  SearchSystem.searchIndex (SearchSystem.buildSearchIndex win s)
  = map SearchSystem.photoEntry (SearchSpec.records (Window.photography win))
    ++ map SearchSystem.writingEntry (SearchSpec.records (Window.writings win))
    ++ map SearchSystem.trackEntry (SearchSpec.records (Window.music win))
    ++ map SearchSystem.projectEntry (SearchSpec.records (Window.projects win))
    ++ map SearchSystem.curatedWritingEntry
         (SearchSpec.records (Window.curatedWritings win))
    ++ map SearchSystem.curatedCinemaEntry
         (SearchSpec.records (Window.curatedCinema win))
    ++ map SearchSystem.curatedMusicEntry
         (SearchSpec.records (Window.curatedMusic win))
    ++ map SearchSystem.curatedMiscEntry
         (SearchSpec.records (Window.curatedMisc win)).
Proof.
  unfold SearchSystem.buildSearchIndex. simpl.
  rewrite !indexCollection_app. simpl. by rewrite <- !app_assoc.
Qed.

Lemma map_type_constant {A : Type} (entry : A -> SearchSystem.Entry.t) type l :
  (forall x, SearchSystem.Entry.type (entry x) = type) ->
  map SearchSystem.Entry.type (map entry l) = List.repeat type (List.length l).
Proof.
  intros H. induction l as [|x l IH]; simpl; [reflexivity|].
  by rewrite H, IH.
Qed.

(** C6: building the index twice over the same collections gives index
    sequences of the same length with the same (type, id) pairs in the same
    order; the index holds the entries of the photographs, then of the
    writings, the tracks, the projects, the curated writings, the curated
    cinema, the curated music and the curated miscellany, each collection in
    its own order. *)
Theorem buildSearchIndex_idempotent win s :
  let once := SearchSystem.buildSearchIndex win s in
  let twice := SearchSystem.buildSearchIndex win once in
  List.length (SearchSystem.searchIndex twice)
  = List.length (SearchSystem.searchIndex once)
  /\ map SearchSpec.key (SearchSystem.searchIndex twice)
     = map SearchSpec.key (SearchSystem.searchIndex once)
  /\ SearchSystem.searchIndex once
     = map SearchSystem.photoEntry
           (SearchSpec.records (Window.photography win))
       ++ map SearchSystem.writingEntry
            (SearchSpec.records (Window.writings win))
       ++ map SearchSystem.trackEntry (SearchSpec.records (Window.music win))
       ++ map SearchSystem.projectEntry
            (SearchSpec.records (Window.projects win))
       ++ map SearchSystem.curatedWritingEntry
            (SearchSpec.records (Window.curatedWritings win))
       ++ map SearchSystem.curatedCinemaEntry
            (SearchSpec.records (Window.curatedCinema win))
       ++ map SearchSystem.curatedMusicEntry
            (SearchSpec.records (Window.curatedMusic win))
       ++ map SearchSystem.curatedMiscEntry
            (SearchSpec.records (Window.curatedMisc win))
  /\ map SearchSystem.Entry.type (SearchSystem.searchIndex once)
     = List.repeat "photo"
         (List.length (SearchSpec.records (Window.photography win)))
       ++ List.repeat "writing"
            (List.length (SearchSpec.records (Window.writings win)))
       ++ List.repeat "music"
            (List.length (SearchSpec.records (Window.music win)))
       ++ List.repeat "project"
            (List.length (SearchSpec.records (Window.projects win)))
       ++ List.repeat "curated_writing"
            (List.length (SearchSpec.records (Window.curatedWritings win)))
       ++ List.repeat "curated_cinema"
            (List.length (SearchSpec.records (Window.curatedCinema win)))
       ++ List.repeat "curated_music"
            (List.length (SearchSpec.records (Window.curatedMusic win)))
       ++ List.repeat "curated_misc"
            (List.length (SearchSpec.records (Window.curatedMisc win))).
Proof.
  intros once twice.
  assert (E : SearchSystem.searchIndex twice = SearchSystem.searchIndex once).
  { unfold twice, once. by rewrite !buildSearchIndex_index. }
  split; [by rewrite E|]. split; [by rewrite E|].
  split; [apply buildSearchIndex_index|].
  unfold once. rewrite buildSearchIndex_index, !map_app.
  repeat f_equal; by apply map_type_constant.
Qed.

(** *** The keyboard *)

(** C9: with a result list of length [len > 0] and a selected index in
    [0, len-1], ArrowDown selects [min(selected+1, len-1)] and ArrowUp
    selects [max(selected-1, 0)]; at [len-1] ArrowDown, and at [0] ArrowUp,
    leave the index as it is, and the index stays in [0, len-1]. *)
Theorem arrows_clamp win s r :
  let len := Z.of_nat (List.length (SearchSystem.currentResults s)) in
  let selected := SearchSystem.selectedResultIndex s in
  let after key :=
    SearchSystem.selectedResultIndex
      (fst (fst (SearchSystem.handleKeyboardNavigation win key s r))) in
  SearchSystem.currentResults s <> [] ->
  (0 <= selected <= len - 1)%Z ->
  after "ArrowDown" = Z.min (selected + 1) (len - 1)
  /\ after "ArrowUp" = Z.max (selected - 1) 0
  /\ (selected = (len - 1)%Z -> after "ArrowDown" = selected)
  /\ (selected = 0%Z -> after "ArrowUp" = selected)
  /\ (0 <= after "ArrowDown" <= len - 1)%Z
  /\ (0 <= after "ArrowUp" <= len - 1)%Z.
Proof.
  intros len selected after Hne Hsel.
  assert (Down : after "ArrowDown" = Z.min (selected + 1) (len - 1)).
  { unfold after, SearchSystem.handleKeyboardNavigation.
    destruct (SearchSystem.currentResults s); [congruence | reflexivity]. }
  assert (Up : after "ArrowUp" = Z.max (selected - 1) 0).
  { unfold after, SearchSystem.handleKeyboardNavigation.
    destruct (SearchSystem.currentResults s); [congruence | reflexivity]. }
  rewrite Down, Up. repeat split; lia.
Qed.

Lemma arrows_clamp_witness :
  SearchSystem.currentResults Sample.browsing <> []
  /\ SearchSystem.selectedResultIndex Sample.browsing = 1%Z
  /\ SearchSystem.selectedResultIndex
       (fst (fst (SearchSystem.handleKeyboardNavigation Sample.library
                    "ArrowDown" Sample.browsing Router.initial)))
     = Z.min (1 + 1) (3 - 1).
Proof.
  split; [discriminate|]. split; [reflexivity|].
  apply (proj1 (arrows_clamp Sample.library Sample.browsing Router.initial
                  ltac:(discriminate) ltac:(vm_compute; split; discriminate))).
Defined.

(** X21: with a result list that is not empty, Escape on the search input
    closes the search surface. *)
Lemma escape_with_results win w :
  SearchSystem.currentResults (App.search w) <> [] ->
  SearchSystem.Elements.overlay (SearchSystem.elements (App.search w)) = true ->
  SearchSystem.Elements.input (SearchSystem.elements (App.search w)) = true ->
  exists w',
    App.keydown win (App.press "Escape" App.SearchInput) w = Some w'
    /\ SearchSystem.isSearchOpen (App.search w') = false.
Proof.
  intros Hr Ho Hi. unfold App.keydown. simpl. rewrite Hi.
  unfold App.onSearchInputKeydown, SearchSystem.handleKeyboardNavigation.
  destruct (SearchSystem.currentResults (App.search w)) eqn:E; [congruence|].
  simpl. unfold SearchSystem.closeSearch. rewrite Ho. simpl.
  eexists. split; reflexivity.
Qed.

(** X22: away from the input fields, Escape closes an open search
    surface. *)
Lemma escape_outside_input win w tag :
  SearchSystem.isSearchOpen (App.search w) = true ->
  SearchSystem.Elements.overlay (SearchSystem.elements (App.search w)) = true ->
  tag <> "INPUT" -> tag <> "TEXTAREA" ->
  exists w',
    App.keydown win (App.press "Escape" (App.Element tag)) w = Some w'
    /\ SearchSystem.isSearchOpen (App.search w') = false.
Proof.
  intros Hopen Ho Hi Ht. unfold App.keydown, App.onDocumentKeydown. simpl.
  destruct (String.eqb_spec tag "INPUT"); [congruence|].
  destruct (String.eqb_spec tag "TEXTAREA"); [congruence|].
  simpl. rewrite Hopen. unfold SearchSystem.closeSearch. rewrite Ho. simpl.
  eexists. split; reflexivity.
Qed.

(** C5, evaluated on the code: [openSearch] leaves the search surface open
    with an empty result list and the focus in the search input. Escape
    pressed there changes nothing: [handleKeyboardNavigation] returns before
    it looks at the key, because the result list is empty, and the handler
    of the document ignores a key pressed in an input. The search surface
    stays open. *)
Theorem escape_after_open_keeps_search_open win :
  SearchSystem.isSearchOpen (App.search Sample.searchOpened) = true
  /\ SearchSystem.currentResults (App.search Sample.searchOpened) = []
  /\ App.keydown win (App.press "Escape" App.SearchInput) Sample.searchOpened
     = Some Sample.searchOpened.
Proof. repeat split. Qed.

(** *** The artist of a curated album *)

Lemma matchingTags_none q tags :
  Forall (fun tag => SearchSpec.contains q tag = false) tags ->
  SearchSpec.matchingTags q tags = 0%nat.
Proof.
  unfold SearchSpec.matchingTags.
  induction 1 as [|tag tags Htag _ IH]; simpl; [reflexivity|].
  by rewrite Htag.
Qed.

(** An entry of score 0 is in no result list. *)
Lemma zero_score_excluded s query entry :
  SearchSystem.scoreOf (JS.trim (JS.toLowerCase query)) entry = 0%Z ->
  ~ In entry (map SearchSystem.Result.item (SearchSystem.search s query)).
Proof.
  intros Hz Hin.
  destruct (SearchSystem.blank query) eqn:Hb.
  - unfold SearchSystem.search in Hin. by rewrite Hb in Hin.
  - apply in_map_iff in Hin as (result & <- & Hin).
    apply (search_In s query result Hb) in Hin as (item & _ & Hpos & ->).
    simpl in Hz. lia.
Qed.

(** C10: the artist of a curated album never contributes to its score:
    the entry that [buildSearchIndex] writes keeps the performer under
    [artist] and has no [author], [director] or [creator], and for every
    query the score of the entry is the score of the entry of the same
    record with any other artist, or none. Hence, when the normalized query
    occurs in the artist and in none of the title, the description, the tags
    and the contentType label of the entry, the entry scores 0 and is in no
    result list. *)
Theorem curated_music_artist_not_scored item s query :
  (forall q artist,
     SearchSystem.scoreOf q
       (SearchSystem.curatedMusicEntry (SearchSpec.withArtist artist item))
     = SearchSystem.scoreOf q (SearchSystem.curatedMusicEntry item))
  /\ (let entry := SearchSystem.curatedMusicEntry item in
      let q := JS.trim (JS.toLowerCase query) in
      SearchSpec.contains q (JS.orEmpty (ContentRecord.artist item)) = true ->
      SearchSpec.contains q (SearchSystem.Entry.title entry) = false ->
      SearchSpec.contains q (SearchSystem.Entry.description entry) = false ->
      Forall (fun tag => SearchSpec.contains q tag = false)
             (SearchSystem.Entry.tags entry) ->
      SearchSpec.contains q (SearchSystem.Entry.contentType entry) = false ->
      SearchSystem.Entry.artist entry
        = Some (JS.orEmpty (ContentRecord.artist item))
      /\ SearchSystem.Entry.author entry = None
      /\ SearchSystem.Entry.director entry = None
      /\ SearchSystem.Entry.creator entry = None
      /\ SearchSystem.scoreOf q entry = 0%Z
      /\ ~ In entry
             (map SearchSystem.Result.item (SearchSystem.search s query))).
Proof.
  split; [intros q artist; reflexivity|].
  intros entry q _ Htitle Hdescription Htags Htype.
  assert (Hz : SearchSystem.scoreOf q entry = 0%Z).
  { unfold SearchSystem.scoreOf. rewrite tags_fold.
    rewrite (matchingTags_none q _ Htags).
    unfold SearchSpec.contains in Htitle, Hdescription, Htype.
    rewrite Htitle, Hdescription, Htype. reflexivity. }
  repeat split; try reflexivity; [exact Hz|].
  by apply zero_score_excluded.
Qed.

Lemma curated_music_artist_not_scored_witness :
  SearchSpec.contains "miles" "Miles Davis" = true
  /\ In (SearchSystem.curatedMusicEntry Sample.kindOfBlue)
        (SearchSystem.searchIndex Sample.indexed)
  /\ SearchSystem.scoreOf "miles"
       (SearchSystem.curatedMusicEntry Sample.kindOfBlue) = 0%Z
  /\ SearchSystem.search Sample.indexed "Miles" = []
  /\ SearchSystem.scoreOf "blue"
       (SearchSystem.curatedMusicEntry
          (SearchSpec.withArtist (Some "Blue Mitchell") Sample.kindOfBlue))
     = 10%Z.
Proof.
  split; [reflexivity|].
  split; [simpl; tauto|].
  split; [|split; [reflexivity|]].
  - apply (proj2 (curated_music_artist_not_scored Sample.kindOfBlue
                    Sample.indexed "Miles")
             eq_refl eq_refl eq_refl ltac:(repeat constructor) eq_refl).
  - rewrite (proj1 (curated_music_artist_not_scored Sample.kindOfBlue
                      Sample.indexed "Miles") "blue" (Some "Blue Mitchell")).
    reflexivity.
Defined.

(** * Further properties of the router *)

(** The pairs of a table written as a list. *)
Ltac table_cases H :=
  apply elem_of_list_to_map_2 in H;
  repeat (apply elem_of_cons in H as [H|H];
          [injection H as -> -> |]);
  [.. | by apply elem_of_nil in H].

Lemma handleControllerRoute_effects win route calls e :
  Router.handleControllerRoute win route = Some calls ->
  In e calls ->
  (exists c, e = ControllerInit c) \/ (exists c id, e = ControllerRender c id)
  \/ e = UpdateBackButton \/ e = UpdateHierarchyIndicator route.
Proof.
  unfold Router.handleControllerRoute, Router.handled.
  repeat match goal with
         | |- context [if ?b then _ else _] => destruct b
         end;
    intros H; try discriminate H; injection H as <-; simpl;
    intuition (subst; eauto).
Qed.

(** What [renderRoute] can do: show the "room not found" panel, clear the
    walls, call a controller, update the back button and the hierarchy
    indicator, render the room. *)
Lemma renderRoute_effects win route r e :
  In e (Router.renderRoute win route r) ->
  e = Show404 \/ e = ClearAllWalls
  \/ (exists c, e = ControllerInit c) \/ (exists c id, e = ControllerRender c id)
  \/ e = UpdateBackButton \/ e = UpdateHierarchyIndicator route
  \/ exists config,
       Router.routeConfigOf route = Some config
       /\ Router.handleControllerRoute win route = None
       /\ e = RenderRoom config (Router.getViewClass r).
Proof.
  unfold Router.renderRoute.
  destruct (Router.routeConfigOf route) as [config|]; simpl.
  - destruct (Router.handleControllerRoute win route) as [calls|] eqn:E; simpl.
    + intros [<-|H]; [tauto|].
      destruct (handleControllerRoute_effects win route calls e E H)
        as [?|[?|[?|?]]]; tauto.
    + intros [<-|[<-|[]]]; [tauto|].
      do 6 right. by exists config.
  - intros [<-|[]]. tauto.
Qed.

(** The effects of [navigateTo]: a history entry when asked for one, the
    title of a configured route, then the rendering. *)
Lemma navigateTo_effects win route addToHistory clickedWall r e :
  In e (snd (Router.navigateTo win route addToHistory clickedWall r)) ->
  (addToHistory = true /\ e = PushState route)
  \/ (exists title, e = SetDocumentTitle title)
  \/ In e (Router.renderRoute win route
             (fst (Router.navigateTo win route addToHistory clickedWall r))).
Proof.
  unfold Router.navigateTo. simpl. rewrite !in_app_iff.
  intros [H|[H|H]].
  - destruct addToHistory; [|destruct H].
    destruct H as [<-|[]]. by left.
  - destruct (Router.routeConfigOf route); [|destruct H].
    destruct H as [<-|[]]. right. left. eauto.
  - by do 2 right.
Qed.

(** Without [addToHistory], [navigateTo] pushes no history entry. *)
Lemma navigateTo_quiet win route clickedWall r pushed :
  ~ In (PushState pushed)
       (snd (Router.navigateTo win route false clickedWall r)).
Proof.
  intros H. apply navigateTo_effects in H as [[? _]|[[? ?]|H]];
    [discriminate | discriminate |].
  apply renderRoute_effects in H
    as [?|[?|[[? ?]|[(? & ? & ?)|[?|[?|(? & _ & _ & ?)]]]]]];
    discriminate.
Qed.

(** X1: [handleRoute] never pushes a browser history entry; it does nothing
    when the fragment names the current route and that route is not the home
    route; in every case the current route is afterwards the fragment
    without its first character. *)
Theorem handleRoute_follows_hash win hash r :
  let route := match hash with
               | EmptyString => ""
               | String _ rest => rest
               end in
  (forall pushed,
     ~ In (PushState pushed) (snd (Router.handleRoute win hash r)))
  /\ (route = Router.currentRoute r -> Router.currentRoute r <> "" ->
      Router.handleRoute win hash r = (r, []))
  /\ Router.currentRoute (fst (Router.handleRoute win hash r)) = route.
Proof.
  intros route. unfold Router.handleRoute. fold route.
  destruct (String.eqb_spec route (Router.currentRoute r)) as [Heq|Hne];
    destruct (String.eqb_spec (Router.currentRoute r) "") as [Hhome|Hroom];
    simpl.
  - split; [intros; apply navigateTo_quiet|]. split; [congruence | reflexivity].
  - split; [by intros pushed []|]. split; [reflexivity | by symmetry].
  - split; [intros; apply navigateTo_quiet|]. split; [congruence | reflexivity].
  - split; [intros; apply navigateTo_quiet|]. split; [congruence | reflexivity].
Qed.

Lemma handleRoute_follows_hash_witness :
  Router.handleRoute Sample.page "#/works/curated/music" Sample.atCuratedMusic
  = (Sample.atCuratedMusic, []).
Proof.
  apply (proj1 (proj2 (handleRoute_follows_hash Sample.page
                         "#/works/curated/music" Sample.atCuratedMusic)));
    [reflexivity | discriminate].
Defined.

(** X2: in every state that the router reaches from its initial state by
    [navigateTo], [goBack] and [handleRoute], the current route is the last
    entry of the navigation history and the previous route is the entry
    before it (the home route [''] where the history has no such entry). *)
Theorem history_ends_with_routes win r :
  rtc (Router.step win) Router.initial r ->
  Router.currentRoute r = List.last (Router.navigationHistory r) ""
  /\ Router.previousRoute r
     = List.last (List.removelast (Router.navigationHistory r)) "".
Proof.
  revert r. apply rtc_ind_r; [by split|].
  intros r1 r2 _ Hstep IH.
  assert (Nav : forall route a c,
    let r' := fst (Router.navigateTo win route a c r1) in
    Router.currentRoute r' = List.last (Router.navigationHistory r') ""
    /\ Router.previousRoute r'
       = List.last (List.removelast (Router.navigationHistory r')) "").
  { intros route a c. simpl.
    rewrite List.last_last, List.removelast_last. split; [reflexivity|].
    apply IH. }
  destruct Hstep as [route a c r1|r1 r2 effects Hback|hash r1].
  - apply (Nav route a c).
  - unfold Router.goBack in Hback.
    destruct (Router.getParentRoute (Router.currentRoute r1)) as [parent|];
      [|discriminate].
    injection Hback as <- _. apply (Nav parent true None).
  - unfold Router.handleRoute.
    match goal with |- context [if ?b then _ else _] => destruct b end;
      [apply (Nav _ false None) | exact IH].
Qed.

Lemma history_ends_with_routes_witness :
  Router.currentRoute Sample.atWorks = "/works"
  /\ Router.currentRoute Sample.atWorks
     = List.last (Router.navigationHistory Sample.atWorks) "".
Proof.
  split; [reflexivity|].
  apply (history_ends_with_routes Sample.page Sample.atWorks).
  eapply rtc_l; [|apply rtc_refl].
  apply (Router.step_navigateTo Sample.page "/works" true (Some "left")).
Defined.

(** The parent that the hierarchy declares is the home route or one of the
    three rooms above the leaves. *)
Lemma hierarchy_cases route parent :
  Router.hierarchy !! route = Some parent ->
  In (route, parent)
     [ ("/about", ""); ("/works", ""); ("/works/personal", "/works");
       ("/works/curated", "/works");
       ("/works/personal/photography", "/works/personal");
       ("/works/personal/writings", "/works/personal");
       ("/works/personal/music", "/works/personal");
       ("/works/personal/projects", "/works/personal");
       ("/works/curated/writings", "/works/curated");
       ("/works/curated/cinema", "/works/curated");
       ("/works/curated/music", "/works/curated");
       ("/works/curated/misc", "/works/curated") ].
Proof.
  intros H. unfold Router.hierarchy in H. table_cases H; simpl; tauto.
Qed.

Lemma getParentRoute_cases route parent :
  Router.getParentRoute route = Some parent ->
  parent = ""
  \/ (Router.hierarchy !! route = Some parent
      /\ In parent ["/works"; "/works/personal"; "/works/curated"]).
Proof.
  unfold Router.getParentRoute.
  destruct (String.eqb route ""); [intros [= <-]; by left|].
  destruct (Router.hierarchy !! route) as [p|] eqn:E.
  - intros [= <-]. pose proof (hierarchy_cases route p E) as H. simpl in H.
    repeat (destruct H as [[= <- <-]|H]; [simpl; tauto|]). destruct H.
  - destruct (JS.inherited route); [discriminate|]. intros [= <-]. by left.
Qed.

(** X3: from every route that is not a property name of
    [Object.prototype], three applications of [getParentRoute] lead to the
    home route: the back button reaches the entrance in at most three
    steps. *)
Theorem home_within_three_steps route :
  JS.inherited route = false ->
  exists p1 p2,
    Router.getParentRoute route = Some p1
    /\ Router.getParentRoute p1 = Some p2
    /\ Router.getParentRoute p2 = Some "".
Proof.
  intros Hi.
  assert (exists p1, Router.getParentRoute route = Some p1) as [p1 H1].
  { unfold Router.getParentRoute. rewrite Hi.
    destruct (String.eqb route ""); [eauto|].
    destruct (Router.hierarchy !! route); eauto. }
  exists p1.
  destruct (getParentRoute_cases route p1 H1) as [->|[_ Hp]].
  - exists "". by repeat split.
  - simpl in Hp. destruct Hp as [<-|[<-|[<-|[]]]].
    + exists "". by repeat split.
    + exists "/works". by repeat split.
    + exists "/works". by repeat split.
Qed.

Lemma home_within_three_steps_witness :
  exists p1 p2,
    Router.getParentRoute "/works/curated/music" = Some p1
    /\ Router.getParentRoute p1 = Some p2
    /\ Router.getParentRoute p2 = Some "".
Proof. apply (home_within_three_steps "/works/curated/music" eq_refl). Defined.

(** X4: [updateBackButton] always has a label to write. At home the button
    is disabled and says so; in every other room whose route is not a
    property name of [Object.prototype] it is enabled and its label names
    the parent room with a name of the [names] table, never with the
    fallback "Previous Page". *)
Theorem back_button_names_parent r :
  is_Some (Router.updateBackButton r)
  /\ (Router.currentRoute r = "" ->
      Router.updateBackButton r
      = Some (Router.BackButton.mk "0.3" true "not-allowed"
                "Back (you are at home)" "Back (you are at home)"))
  /\ (Router.currentRoute r <> "" ->
      JS.inherited (Router.currentRoute r) = false ->
      exists parent name,
        Router.getParentRoute (Router.currentRoute r) = Some parent
        /\ Router.names !! parent = Some name
        /\ name <> "Previous Page"
        /\ Router.updateBackButton r
           = Some (Router.BackButton.mk "1" false "pointer"
                     ("Go back to " +:+ name) ("Go back to " +:+ name))).
Proof.
  assert (Named : forall parent,
    Router.getParentRoute (Router.currentRoute r) = Some parent ->
    exists name,
      Router.names !! parent = Some name
      /\ name <> "Previous Page"
      /\ Router.getRouteDisplayName parent = Some name).
  { intros parent H.
    destruct (getParentRoute_cases _ _ H) as [->|[_ Hp]].
    - exists "Home". by repeat split.
    - simpl in Hp. destruct Hp as [<-|[<-|[<-|[]]]];
        eexists; (split; [reflexivity|]); by split. }
  unfold Router.updateBackButton.
  destruct (String.eqb_spec (Router.currentRoute r) "") as [Hc|Hc]; simpl.
  { split; [eauto|]. split; [reflexivity | congruence]. }
  destruct (Router.getParentRoute (Router.currentRoute r)) as [parent|] eqn:E.
  - destruct (Named parent eq_refl) as (name & Hn & Hne & ->).
    split; [eauto|]. split; [congruence|].
    intros _ _. exists parent, name. by repeat split.
  - split; [eauto|]. split; [congruence|].
    intros _ Hi. unfold Router.getParentRoute in E. rewrite Hi in E.
    destruct (String.eqb (Router.currentRoute r) ""); [discriminate|].
    destruct (Router.hierarchy !! Router.currentRoute r); discriminate.
Qed.

Lemma back_button_names_parent_witness :
  Router.updateBackButton Sample.atCuratedMusic
  = Some (Router.BackButton.mk "1" false "pointer"
            "Go back to Curated Works" "Go back to Curated Works")
  /\ exists parent name,
       Router.getParentRoute (Router.currentRoute Sample.atCuratedMusic)
         = Some parent
       /\ Router.names !! parent = Some name
       /\ name <> "Previous Page"
       /\ Router.updateBackButton Sample.atCuratedMusic
          = Some (Router.BackButton.mk "1" false "pointer"
                    ("Go back to " +:+ name) ("Go back to " +:+ name)).
Proof.
  split; [reflexivity|].
  apply (proj2 (proj2 (back_button_names_parent Sample.atCuratedMusic)));
    [discriminate | reflexivity].
Defined.

(** The own entries of the route table. *)
Lemma routes_cases route config :
  Router.routes !! route = Some config ->
  In route [ ""; "/about"; "/works"; "/works/personal";
             "/works/personal/writings"; "/works/personal/photography";
             "/works/curated"; "/works/curated/writings";
             "/works/curated/cinema"; "/works/curated/music";
             "/works/curated/misc"; "/works/personal/music";
             "/works/personal/projects" ]
  /\ Router.routes !! route = Some config.
Proof. intros H. split; [by eapply routes_lookup_keys | exact H]. Qed.

(** X5: the navigation walls and the back hierarchy agree. In a room of the
    route table, following a navigation wall and then going back leads to
    the room again. *)
Theorem wall_then_back win r config target clickedWall :
  Router.routes !! Router.currentRoute r = Some config ->
  In target (Router.navigationTargets config) ->
  exists r' effects,
    Router.goBack win
      (fst (Router.navigateTo win target true clickedWall r))
    = Some (r', effects)
    /\ Router.currentRoute r' = Router.currentRoute r.
Proof.
  intros Hc Ht.
  assert (Hp : Router.getParentRoute target = Some (Router.currentRoute r)).
  { destruct (routes_cases _ _ Hc) as [Hk Hl].
    simpl in Hk.
    repeat (destruct Hk as [Hr|Hk];
      [rewrite <- Hr in *; vm_compute in Hl; injection Hl as <-;
       simpl in Ht;
       repeat (destruct Ht as [<-|Ht]; [reflexivity|]); destruct Ht|]).
    destruct Hk. }
  eexists _, _. split.
  - apply goBack_navigates. simpl. exact Hp.
  - reflexivity.
Qed.

Lemma wall_then_back_witness :
  In "/works/curated" ["/works/personal"; "/works/curated"]
  /\ exists r' effects,
       Router.goBack Sample.page
         (fst (Router.navigateTo Sample.page "/works/curated" true
                 (Some "right") Sample.atWorks))
       = Some (r', effects)
       /\ Router.currentRoute r' = Router.currentRoute Sample.atWorks.
Proof.
  split; [simpl; tauto|].
  eapply (wall_then_back Sample.page Sample.atWorks _ "/works/curated").
  - reflexivity.
  - simpl. tauto.
Defined.

(** The leaf routes: the rooms whose back wall carries content. *)
Lemma isLeafRoute_cases r :
  Router.isLeafRoute r = true ->
  In (Router.currentRoute r)
     [ "/about"; "/works/personal/writings"; "/works/personal/photography";
       "/works/curated/writings"; "/works/curated/cinema";
       "/works/curated/music"; "/works/curated/misc";
       "/works/personal/music"; "/works/personal/projects" ].
Proof.
  unfold Router.isLeafRoute, Router.routeConfigOf.
  destruct (Router.routes !! Router.currentRoute r) as [config|] eqn:E.
  - destruct (routes_cases _ _ E) as [Hk Hl]. simpl in Hk.
    repeat (destruct Hk as [Hr|Hk];
      [rewrite <- Hr in *; vm_compute in Hl; injection Hl as <-;
       simpl; first [discriminate | tauto]|]).
    destruct Hk.
  - destruct (JS.inherited (Router.currentRoute r)); discriminate.
Qed.

(** X6: [getViewClass] gives a perspective class only for a leaf room
    other than [/about] that was entered by a click on the matching side
    wall: [view-left] after the left wall, [view-right] after the right one.
    On a page where every controller is defined, [handleControllerRoute]
    hands the current route of every such state to a controller. *)
Theorem perspective_only_on_controller_routes win r :
  (forall c, Window.defined win c = true) ->
  Router.getViewClass r = "view-left" \/ Router.getViewClass r = "view-right" ->
  Router.isLeafRoute r = true
  /\ Router.currentRoute r <> "/about"
  /\ (Router.getViewClass r = "view-left" ->
      Router.lastClickedWall r = Some "left")
  /\ (Router.getViewClass r = "view-right" ->
      Router.lastClickedWall r = Some "right")
  /\ is_Some (Router.handleControllerRoute win (Router.currentRoute r)).
Proof.
  intros Hwin Hview.
  assert (H : Router.isLeafRoute r = true
              /\ Router.currentRoute r <> "/about"
              /\ (Router.getViewClass r = "view-left" ->
                  Router.lastClickedWall r = Some "left")
              /\ (Router.getViewClass r = "view-right" ->
                  Router.lastClickedWall r = Some "right")).
  { unfold Router.getViewClass in *.
    destruct (Router.isForwardNavigation r);
      [destruct Hview; discriminate|].
    destruct (String.eqb_spec (Router.currentRoute r) "/about") as [|Hne];
      cbn [negb andb] in *; [destruct Hview; discriminate|].
    destruct (Router.isLeafRoute r);
      [|rewrite !andb_false_r in Hview; destruct Hview; discriminate].
    rewrite !andb_true_r in *.
    destruct (bool_decide_reflect (Router.lastClickedWall r = Some "left"))
      as [Hl|_].
    - repeat split; [exact Hne | by intros _ | discriminate].
    - destruct (bool_decide_reflect (Router.lastClickedWall r = Some "right"))
        as [Hr|_]; [|destruct Hview; discriminate].
      repeat split; [exact Hne | discriminate | by intros _]. }
  destruct H as (Hleaf & Hne & Hl & Hr).
  repeat split; try assumption.
  apply isLeafRoute_cases in Hleaf. simpl in Hleaf.
  unfold Router.handleControllerRoute. rewrite !Hwin.
  repeat (destruct Hleaf as [<-|Hleaf]; [by eexists|]). destruct Hleaf.
Qed.

Lemma perspective_only_on_controller_routes_witness :
  let r := fst (Router.navigateTo Sample.page "/works/personal/writings" true
                  (Some "left") Router.initial) in
  Router.getViewClass r = "view-left"
  /\ is_Some (Router.handleControllerRoute Sample.page (Router.currentRoute r)).
Proof.
  intros r. split; [reflexivity|].
  apply (perspective_only_on_controller_routes Sample.page r
           ltac:(intros []; reflexivity) ltac:(left; reflexivity)).
Defined.

(** X7: going back never asks for the forward transition or for a
    perspective view: whenever [goBack] has a route to go to (the current
    route is not a property name of [Object.prototype]), the view class of
    the state that it leaves is the default one. *)
Theorem goBack_default_view win r r' effects :
  Router.goBack win r = Some (r', effects) ->
  Router.getViewClass r' = "".
Proof.
  intros H. unfold Router.goBack in H.
  destruct (Router.getParentRoute (Router.currentRoute r)) as [parent|] eqn:E;
    [|discriminate].
  assert (Hv : Router.getViewClass
                 (fst (Router.navigateTo win parent true None r)) = "").
  { unfold Router.getViewClass, Router.isForwardNavigation. simpl.
    destruct (getParentRoute_cases _ _ E) as [->|[Hh _]].
    - rewrite orb_true_r. reflexivity.
    - apply hierarchy_cases in Hh. simpl in Hh.
      repeat (destruct Hh as [[= <- <-]|Hh]; [reflexivity|]). destruct Hh. }
  assert (Hpair : Router.navigateTo win parent true None r = (r', effects))
    by congruence.
  by rewrite <- (f_equal fst Hpair : _ = r').
Qed.

Lemma goBack_default_view_witness :
  Router.getViewClass
    (fst (Router.navigateTo Sample.page "/works/curated" true None
            Sample.atCuratedMusic)) = "".
Proof.
  apply (goBack_default_view Sample.page Sample.atCuratedMusic _ _ eq_refl).
Defined.

Lemma includes_char_cons a b s :
  JS.includes (String a "") (String b s)
  = if ascii_dec a b then true else JS.includes (String a "") s.
Proof.
  change (JS.includes (String a "") (String b s))
    with ((if ascii_dec a b then String.prefix "" s else false)
          || JS.includes (String a "") s).
  destruct (ascii_dec a b); [by destruct s | reflexivity].
Qed.

(** A string without the separator is its own single segment. *)
Lemma split_segment c : JS.includes "/" c = false -> JS.split "/" c = [c].
Proof.
  induction c as [|a c IH]; [reflexivity|].
  rewrite includes_char_cons.
  destruct (ascii_dec "/" a) as [<-|Hne]; [discriminate|].
  intros H. cbn [JS.split]. rewrite (IH H).
  destruct (Ascii.eqb_spec a "/") as [->|_]; [congruence | reflexivity].
Qed.

Lemma startsWith_empty s : JS.startsWith "" s = true.
Proof. by destruct s. Qed.

(** X8: the route that [buildSearchIndex] writes in the entry of a record
    of a collection leads [handleControllerRoute], when the controller is
    defined, to render that collection: the collection segment read back
    from the route is the collection of the record (for a collection name
    without '/'). *)
Theorem collection_route_reaches_collection win record c :
  ContentRecord.collection record = Some c ->
  JS.includes "/" c = false ->
  let reaches entry controller :=
    Window.defined win controller = true ->
    Router.handleControllerRoute win (SearchSystem.Entry.route entry)
    = Some [ ControllerRender controller (Some c); UpdateBackButton;
             UpdateHierarchyIndicator (SearchSystem.Entry.route entry) ] in
  reaches (SearchSystem.photoEntry record) PhotographyController
  /\ reaches (SearchSystem.curatedWritingEntry record)
             CuratedWritingsController
  /\ reaches (SearchSystem.curatedCinemaEntry record) CuratedCinemaController
  /\ reaches (SearchSystem.curatedMusicEntry record) CuratedMusicController
  /\ reaches (SearchSystem.curatedMiscEntry record) CuratedMiscController.
Proof.
  intros Hc Hs reaches. unfold reaches.
  repeat split; intros Hd; unfold Router.handleControllerRoute;
    rewrite Hd; simpl; rewrite Hc; cbv [JS.interpolate String.append];
    simpl; rewrite (split_segment c Hs), startsWith_empty; reflexivity.
Qed.

Lemma collection_route_reaches_collection_witness :
  Router.handleControllerRoute Sample.library
    (SearchSystem.Entry.route (SearchSystem.curatedMusicEntry Sample.kindOfBlue))
  = Some [ ControllerRender CuratedMusicController (Some "albums");
           UpdateBackButton;
           UpdateHierarchyIndicator "/works/curated/music/albums" ].
Proof.
  apply (proj1 (proj2 (proj2 (proj2
           (collection_route_reaches_collection Sample.library
              Sample.kindOfBlue "albums" eq_refl eq_refl))))).
  reflexivity.
Defined.

Lemma renderRoute_dynamic_witness :
  Router.renderRoute Sample.library "/works/curated/music/albums"
    Router.initial = [Show404].
Proof.
  apply (renderRoute_dynamic Sample.library "/works/curated/music/"
           "/works/curated/music/albums" Router.initial).
  - simpl. tauto.
  - reflexivity.
Defined.

Lemma navigateTo_unknown_witness :
  Router.navigateTo Sample.page "/cellar" true None Router.initial
  = (Router.mk "/cellar" "" None ["/cellar"], [PushState "/cellar"; Show404]).
Proof.
  apply (navigateTo_unknown Sample.page "/cellar" true None Router.initial).
  reflexivity.
Defined.

(** * Further properties of the search system *)

(** *** The normal form of a query *)

Lemma lowerUnit_idempotent c : JS.lowerUnit (JS.lowerUnit c) = JS.lowerUnit c.
Proof. destruct c as [[] [] [] [] [] [] [] []]; reflexivity. Qed.

Lemma toLowerCase_idempotent s :
  JS.toLowerCase (JS.toLowerCase s) = JS.toLowerCase s.
Proof.
  induction s as [|c s IH]; simpl; [reflexivity|].
  by rewrite lowerUnit_idempotent, IH.
Qed.

Lemma trimEnd_idempotent s : JS.trimEnd (JS.trimEnd s) = JS.trimEnd s.
Proof.
  induction s as [|c s IH]; [reflexivity|].
  cbn [JS.trimEnd]. destruct (JS.trimEnd s) as [|d t] eqn:E.
  - destruct (JS.isSpace c) eqn:Hc; [reflexivity|].
    cbn [JS.trimEnd]. by rewrite Hc.
  - cbn [JS.trimEnd]. cbn [JS.trimEnd] in IH. by rewrite IH.
Qed.

Lemma trimStart_headed s : JS.headed (JS.trimStart s).
Proof.
  induction s as [|c s IH]; simpl; [exact I|].
  destruct (JS.isSpace c) eqn:Hc; [exact IH | exact Hc].
Qed.

Lemma trimEnd_headed s : JS.headed s -> JS.headed (JS.trimEnd s).
Proof.
  destruct s as [|c s]; [trivial|]. simpl. intros Hc.
  destruct (JS.trimEnd s); [by rewrite Hc | exact Hc].
Qed.

Lemma trimStart_of_headed s : JS.headed s -> JS.trimStart s = s.
Proof. destruct s as [|c s]; [trivial|]. simpl. by intros ->. Qed.

Lemma trim_idempotent s : JS.trim (JS.trim s) = JS.trim s.
Proof.
  unfold JS.trim.
  rewrite (trimStart_of_headed (JS.trimEnd (JS.trimStart s)))
    by apply trimEnd_headed, trimStart_headed.
  apply trimEnd_idempotent.
Qed.

(** Normalizing twice is normalizing once. *)
Lemma normalize_idempotent query :
  JS.trim (JS.toLowerCase (JS.trim (JS.toLowerCase query)))
  = JS.trim (JS.toLowerCase query).
Proof.
  rewrite (trim_toLowerCase query), toLowerCase_idempotent.
  rewrite trim_toLowerCase. by rewrite trim_idempotent.
Qed.

(** X10: [search] depends on the query through its normal form only: two
    queries with the same lowercased and trimmed text give the same result
    list; in particular letter case and surrounding white space do not
    matter, and searching for the normal form of a query gives the results
    of the query. *)
Theorem search_by_normal_form s query1 query2 :
  JS.trim (JS.toLowerCase query1) = JS.trim (JS.toLowerCase query2) ->
  SearchSystem.search s query1 = SearchSystem.search s query2
  /\ SearchSystem.search s (JS.trim (JS.toLowerCase query1))
     = SearchSystem.search s query1.
Proof.
  assert (Same : forall a b,
    JS.trim (JS.toLowerCase a) = JS.trim (JS.toLowerCase b) ->
    SearchSystem.search s a = SearchSystem.search s b).
  { intros a b H.
    assert (Hb : SearchSystem.blank a = SearchSystem.blank b).
    { destruct (SearchSystem.blank a) eqn:Ea, (SearchSystem.blank b) eqn:Eb;
        try reflexivity.
      - apply blank_normalized in Eb. rewrite <- H in Eb.
        apply blank_normalized in Eb. congruence.
      - apply blank_normalized in Ea. rewrite H in Ea.
        apply blank_normalized in Ea. congruence. }
    unfold SearchSystem.search. by rewrite Hb, H. }
  intros H. split; [by apply Same|].
  apply Same, normalize_idempotent.
Qed.

Lemma search_by_normal_form_witness :
  SearchSystem.search Sample.indexed "  NIGHT" 
  = SearchSystem.search Sample.indexed "night "
  /\ SearchSystem.search Sample.indexed "night "
     <> [].
Proof.
  split; [|discriminate].
  apply (proj1 (search_by_normal_form Sample.indexed "  NIGHT" "night "
                  eq_refl)).
Defined.

(** *** Narrowing a query *)

Lemma append_cons x (a b : string) : String x a +:+ b = String x (a +:+ b).
Proof. reflexivity. Qed.

Lemma append_assoc (a b c : string) : (a +:+ b) +:+ c = a +:+ (b +:+ c).
Proof.
  induction a as [|x a IH]; [reflexivity|].
  by rewrite !append_cons, IH.
Qed.

Lemma prefix_spec p s :
  String.prefix p s = true <-> exists post, s = p +:+ post.
Proof.
  revert s. induction p as [|a p IH]; intros s.
  - split; [intros _; by exists s | intros _; by destruct s].
  - destruct s as [|b s]; cbn [String.prefix].
    + split; [discriminate | intros [post H]; discriminate].
    + destruct (ascii_dec a b) as [<-|Hne].
      * rewrite IH. split; intros [post H]; exists post.
        -- by rewrite append_cons, H.
        -- rewrite append_cons in H. congruence.
      * split; [discriminate|]. intros [post H].
        rewrite append_cons in H. congruence.
Qed.

(** [includes] is the substring relation. *)
Lemma includes_spec q s :
  JS.includes q s = true <-> exists pre post, s = pre +:+ q +:+ post.
Proof.
  induction s as [|b s IH].
  - cbn [JS.includes]. rewrite orb_false_r, prefix_spec. split.
    + intros [post H]. by exists "", post.
    + intros (pre & post & H). destruct pre; [|discriminate].
      by exists post.
  - cbn [JS.includes]. rewrite orb_true_iff, prefix_spec, IH. split.
    + intros [[post H]|(pre & post & H)].
      * by exists "", post.
      * exists (String b pre), post. by rewrite append_cons, H.
    + intros (pre & post & H). destruct pre as [|c pre].
      * left. by exists post.
      * right. exists pre, post. rewrite append_cons in H. congruence.
Qed.

Lemma includes_trans a b s :
  JS.includes a b = true -> JS.includes b s = true -> JS.includes a s = true.
Proof.
  rewrite !includes_spec.
  intros (p1 & q1 & ->) (p2 & q2 & ->).
  exists (p2 +:+ p1), (q1 +:+ q2). by rewrite !append_assoc.
Qed.

Lemma weight_mono w a b :
  (0 <= w)%Z -> (a = true -> b = true) ->
  (SearchSpec.weight w a <= SearchSpec.weight w b)%Z.
Proof.
  intros Hw Hab. destruct a, b; simpl;
    first [lia | discriminate (Hab eq_refl)].
Qed.

Lemma matchingTags_mono q1 q2 tags :
  (forall tag, SearchSpec.contains q2 tag = true ->
               SearchSpec.contains q1 tag = true) ->
  (SearchSpec.matchingTags q2 tags <= SearchSpec.matchingTags q1 tags)%nat.
Proof.
  intros H. unfold SearchSpec.matchingTags.
  induction tags as [|tag tags IH]; simpl; [lia|].
  specialize (H tag).
  destruct (SearchSpec.contains q2 tag), (SearchSpec.contains q1 tag);
    simpl; first [lia | discriminate (H eq_refl)].
Qed.

(** X11: a longer query never finds more. When the normal form of one query
    occurs in the normal form of another, every entry scores at most as
    much for the second as for the first, and every entry among the results
    of the second is among the results of the first. *)
Theorem narrowing_query s query1 query2 :
  let q1 := JS.trim (JS.toLowerCase query1) in
  let q2 := JS.trim (JS.toLowerCase query2) in
  q1 <> "" ->
  JS.includes q1 q2 = true ->
  (forall item,
     (SearchSystem.scoreOf q2 item <= SearchSystem.scoreOf q1 item)%Z)
  /\ incl (map SearchSystem.Result.item (SearchSystem.search s query2))
          (map SearchSystem.Result.item (SearchSystem.search s query1)).
Proof.
  intros q1 q2 Hq1 Hsub.
  assert (Hq2 : q2 <> "").
  { intros E. rewrite E in Hsub. by rewrite includes_empty in Hsub. }
  assert (Hc : forall field, SearchSpec.contains q2 field = true ->
                             SearchSpec.contains q1 field = true).
  { unfold SearchSpec.contains. intros field. by apply includes_trans. }
  assert (Ho : forall field, SearchSpec.optional q2 field = true ->
                             SearchSpec.optional q1 field = true).
  { intros [v|]; simpl; [apply Hc | trivial]. }
  assert (Hscore : forall item,
    (SearchSystem.scoreOf q2 item <= SearchSystem.scoreOf q1 item)%Z).
  { intros item. rewrite !scoreOf_spec by assumption.
    unfold SearchSpec.score.
    pose proof (matchingTags_mono q1 q2 (SearchSystem.Entry.tags item) Hc).
    repeat apply Z.add_le_mono;
      try (apply weight_mono; [lia | first [apply Hc | apply Ho]]).
    lia. }
  split; [exact Hscore|].
  intros item Hin.
  apply in_map_iff in Hin as (result & <- & Hin).
  apply search_In in Hin as (item & Hin & Hpos & ->);
    [|by apply blank_normalized].
  apply in_map_iff.
  exists (SearchSystem.Result.mk item (SearchSystem.scoreOf q1 item)).
  split; [reflexivity|].
  apply search_In; [by apply blank_normalized|].
  exists item. repeat split; [exact Hin|].
  specialize (Hscore item). fold q2 in Hpos. fold q1. lia.
Qed.

Lemma narrowing_query_witness :
  map (fun item => SearchSystem.Entry.id item)
      (map SearchSystem.Result.item
         (SearchSystem.search Sample.indexed "night w"))
  = ["p1"]
  /\ incl (map SearchSystem.Result.item
             (SearchSystem.search Sample.indexed "night w"))
          (map SearchSystem.Result.item
             (SearchSystem.search Sample.indexed "night")).
Proof.
  split; [reflexivity|].
  apply (proj2 (narrowing_query Sample.indexed "night" "night w"
                  ltac:(vm_compute; discriminate) eq_refl)).
Defined.

(** *** The selection *)

Lemma closeSearch_selectionOk els s :
  SearchSpec.selectionOk els s ->
  SearchSpec.selectionOk els (fst (SearchSystem.closeSearch s)).
Proof.
  intros (He & H0 & Hlen & Hopen). unfold SearchSystem.closeSearch.
  unfold SearchSpec.selectionOk.
  destruct (SearchSystem.Elements.overlay (SearchSystem.elements s));
    simpl; [|by repeat split].
  repeat split; try assumption. discriminate.
Qed.

Lemma openSearch_selectionOk els s :
  SearchSpec.selectionOk els s ->
  SearchSpec.selectionOk els (fst (SearchSystem.openSearch s)).
Proof.
  intros (He & H0 & Hlen & Hopen). unfold SearchSystem.openSearch.
  destruct (SearchSystem.Elements.overlay (SearchSystem.elements s)) eqn:E;
    simpl; [|by repeat split].
  unfold SearchSpec.selectionOk. simpl.
  repeat split; [exact He | lia | congruence | by rewrite <- He].
Qed.

Lemma selectResult_selectionOk win els index s r :
  SearchSpec.selectionOk els s ->
  SearchSpec.selectionOk els
    (fst (fst (SearchSystem.selectResult win index s r))).
Proof.
  intros H. unfold SearchSystem.selectResult.
  destruct (SearchSystem.resultAt s index) as [result|]; [|exact H].
  destruct (negb _); [destruct (Router.navigateTo _ _ _ _ _)|];
    pose proof (closeSearch_selectionOk els s H) as Hc;
    destruct (SearchSystem.closeSearch s); exact Hc.
Qed.

Lemma step_selectionOk win els s s' :
  SearchSystem.step win s s' ->
  SearchSpec.selectionOk els s -> SearchSpec.selectionOk els s'.
Proof.
  intros Hstep H.
  destruct Hstep as [s|s|s|s|query s|key s r|index s r].
  - exact H.
  - by apply openSearch_selectionOk.
  - by apply closeSearch_selectionOk.
  - unfold SearchSystem.toggleSearch.
    destruct (SearchSystem.isSearchOpen s);
      [by apply closeSearch_selectionOk | by apply openSearch_selectionOk].
  - destruct H as (He & H0 & Hlen & Hopen). unfold SearchSystem.handleSearch.
    unfold SearchSpec.selectionOk.
    destruct (SearchSystem.blank query); simpl.
    + by repeat split.
    + repeat split; try assumption; [lia|].
      destruct (SearchSystem.search s query); [congruence | simpl; lia].
  - unfold SearchSystem.handleKeyboardNavigation.
    destruct (SearchSystem.currentResults s) as [|first rest] eqn:E;
      [exact H|].
    cbn [List.length Nat.eqb].
    destruct (String.eqb key "ArrowDown");
      [|destruct (String.eqb key "ArrowUp");
        [|destruct (String.eqb key "Enter");
          [|destruct (String.eqb key "Escape")]]].
    + destruct H as (He & H0 & Hlen & Hopen).
      unfold SearchSpec.selectionOk. simpl.
      repeat split; try assumption; simpl in *; lia.
    + destruct H as (He & H0 & Hlen & Hopen).
      unfold SearchSpec.selectionOk. simpl.
      repeat split; try assumption; [lia|].
      intros _. rewrite E in Hlen. specialize (Hlen ltac:(discriminate)).
      simpl in *. lia.
    + pose proof (selectResult_selectionOk win els
                    (SearchSystem.selectedResultIndex s) s r H) as Hs.
      destruct (SearchSystem.selectResult win _ s r) as [[s1 r1] effects].
      exact Hs.
    + pose proof (closeSearch_selectionOk els s H) as Hc.
      destruct (SearchSystem.closeSearch s). exact Hc.
    + exact H.
  - by apply selectResult_selectionOk.
Qed.

(** X12: in every state that the search system reaches from its initial
    state (by building the index, opening, closing or toggling the overlay,
    editing the query, pressing keys in the search input or clicking
    results), the selected index is not negative and, when there are
    results, it is the index of one of them: Enter always has a result to
    activate. The search surface is open only on a page that has the
    overlay. *)
Theorem selection_stays_valid win els s :
  rtc (SearchSystem.step win) (SearchSystem.initial els) s ->
  (0 <= SearchSystem.selectedResultIndex s)%Z
  /\ (SearchSystem.currentResults s <> [] ->
      (SearchSystem.selectedResultIndex s
       <= Z.of_nat (List.length (SearchSystem.currentResults s)) - 1)%Z
      /\ is_Some (SearchSystem.resultAt s (SearchSystem.selectedResultIndex s)))
  /\ (SearchSystem.isSearchOpen s = true ->
      SearchSystem.Elements.overlay (SearchSystem.elements s) = true).
Proof.
  intros Hreach.
  assert (H : SearchSpec.selectionOk els s).
  { revert s Hreach. apply rtc_ind_r.
    - unfold SearchSpec.selectionOk. simpl.
      repeat split; [lia | congruence | discriminate].
    - intros s1 s2 _ Hstep IH. by eapply step_selectionOk. }
  destruct H as (He & H0 & Hlen & Hopen).
  split; [exact H0|]. split; [|by rewrite He].
  intros Hne. specialize (Hlen Hne). split; [exact Hlen|].
  unfold SearchSystem.resultAt.
  destruct (Z.ltb_spec (SearchSystem.selectedResultIndex s) 0); [lia|].
  destruct (nth_error (SearchSystem.currentResults s)
              (Z.to_nat (SearchSystem.selectedResultIndex s))) eqn:E;
    [eauto|].
  apply nth_error_None in E. lia.
Qed.

Lemma selection_stays_valid_witness :
  SearchSystem.currentResults
    (fst (SearchSystem.handleSearch "night" Sample.indexed)) <> []
  /\ (0 <= SearchSystem.selectedResultIndex
             (fst (SearchSystem.handleSearch "night" Sample.indexed)))%Z.
Proof.
  split; [discriminate|].
  apply (selection_stays_valid Sample.library Sample.elements
           (fst (SearchSystem.handleSearch "night" Sample.indexed))).
  eapply rtc_l; [apply SearchSystem.step_buildSearchIndex|].
  eapply rtc_l; [apply (SearchSystem.step_handleSearch _ "night")|].
  apply rtc_refl.
Defined.

(** *** The text of a result *)

Lemma length_append (a b : string) :
  String.length (a +:+ b) = (String.length a + String.length b)%nat.
Proof.
  induction a as [|x a IH]; [reflexivity|].
  rewrite append_cons. simpl. by rewrite IH.
Qed.

Lemma substring_head n s :
  (n <= String.length s)%nat ->
  String.length (String.substring 0 n s) = n
  /\ String.prefix (String.substring 0 n s) s = true.
Proof.
  revert s. induction n as [|n IH]; intros s Hn.
  - destruct s; by split.
  - destruct s as [|c s]; simpl in Hn; [lia|].
    destruct (IH s ltac:(lia)) as [Hl Hp].
    cbn [String.substring String.length String.prefix].
    split; [by rewrite Hl|].
    destruct (ascii_dec c c); [exact Hp | congruence].
Qed.

(** X13: [truncate] returns a text that fits as it is; of a longer text it
    keeps the first [maxLength] code units and appends three dots, so that
    the result is never longer than [maxLength + 3]. *)
Theorem truncate_bounds text maxLength :
  ((String.length text <= maxLength)%nat ->
   SearchSystem.truncate text maxLength = text)
  /\ ((maxLength < String.length text)%nat ->
      exists kept,
        SearchSystem.truncate text maxLength = kept +:+ "..."
        /\ String.length kept = maxLength
        /\ String.prefix kept text = true)
  /\ (String.length (SearchSystem.truncate text maxLength)
      <= maxLength + 3)%nat.
Proof.
  unfold SearchSystem.truncate.
  destruct (Nat.leb_spec (String.length text) maxLength) as [Hle|Hlt].
  - split; [reflexivity|]. split; lia.
  - destruct (substring_head maxLength text ltac:(lia)) as [Hl Hp].
    split; [lia|]. split.
    + intros _. by exists (String.substring 0 maxLength text).
    + rewrite length_append, Hl. simpl. lia.
Qed.

Lemma truncate_bounds_witness :
  SearchSystem.truncate "a long night on foot" 6 = "a long..."
  /\ exists kept,
       SearchSystem.truncate "a long night on foot" 6 = kept +:+ "..."
       /\ String.length kept = 6%nat
       /\ String.prefix kept "a long night on foot" = true.
Proof.
  split; [reflexivity|].
  apply (proj1 (proj2 (truncate_bounds "a long night on foot" 6))).
  simpl. lia.
Defined.

Lemma truthy_orEmpty v : JS.truthy (Some (JS.orEmpty v)) = JS.truthy v.
Proof. by destruct v. Qed.

(** X14: what the result list shows under the title of an entry that
    [buildSearchIndex] wrote: the location of a photograph, the author of a
    curated writing, the director of a curated film, the artist of a curated
    album, the creator of a curated miscellany, each when it is not empty,
    and nothing for a personal writing, track or project. *)
Theorem metadata_of_built_entries record score :
  let shown entry :=
    SearchSystem.getResultMetadata (SearchSystem.Result.mk entry score) in
  let attributed (word : string) (field : option string) :=
    if JS.truthy field then word +:+ JS.orEmpty field else "" in
  shown (SearchSystem.photoEntry record)
    = JS.orEmpty (ContentRecord.location record)
  /\ shown (SearchSystem.writingEntry record) = ""
  /\ shown (SearchSystem.trackEntry record) = ""
  /\ shown (SearchSystem.projectEntry record) = ""
  /\ shown (SearchSystem.curatedWritingEntry record)
     = attributed "by " (ContentRecord.author record)
  /\ shown (SearchSystem.curatedCinemaEntry record)
     = attributed "directed by " (ContentRecord.director record)
  /\ shown (SearchSystem.curatedMusicEntry record)
     = attributed "by " (ContentRecord.artist record)
  /\ shown (SearchSystem.curatedMiscEntry record)
     = attributed "by " (ContentRecord.creator record).
Proof.
  intros shown attributed. unfold shown, attributed.
  unfold SearchSystem.getResultMetadata. simpl.
  repeat split.
  - destruct (ContentRecord.location record) as [[|c l]|]; reflexivity.
  - destruct (ContentRecord.author record) as [[|c l]|]; reflexivity.
  - destruct (ContentRecord.director record) as [[|c l]|]; reflexivity.
  - destruct (ContentRecord.artist record) as [[|c l]|]; reflexivity.
  - destruct (ContentRecord.creator record) as [[|c l]|]; reflexivity.
Qed.

(** *** From a result to its room and its lightbox *)

(** Every entry of a built index was written by one of the eight blocks
    for a record of the collection of its controller. *)
Lemma built_entry_cases win s entry :
  In entry (SearchSystem.searchIndex (SearchSystem.buildSearchIndex win s)) ->
  exists c build collection record,
    In (c, build, collection) SearchSpec.builders
    /\ In record (SearchSpec.records (collection win))
    /\ entry = build record.
Proof.
  rewrite buildSearchIndex_index, !in_app_iff, !in_map_iff.
  unfold SearchSpec.builders.
  intros [H|[H|[H|[H|[H|[H|[H|H]]]]]]];
    destruct H as (record & <- & Hin);
    eexists _, _, _, record;
    (split; [|split; [exact Hin | reflexivity]]); simpl; tauto.
Qed.

Lemma records_defined win c build collection record :
  In (c, build, collection) SearchSpec.builders ->
  In record (SearchSpec.records (collection win)) ->
  Window.defined win c = true.
Proof.
  unfold SearchSpec.builders, SearchSpec.records. simpl.
  intros H Hin.
  repeat (destruct H as [[= <- <- <-]|H];
    [simpl; destruct (_ win) as [[l|]|]; simpl in *;
     first [reflexivity | contradiction] |]).
  destruct H.
Qed.



Lemma startsWith_append prefix rest :
  JS.startsWith prefix (prefix +:+ rest) = true.
Proof. apply prefix_spec. by exists rest. Qed.

(** X16: where a result of the index leads. The route of the entry of a
    personal writing, track or project is a room of the route table that its
    controller renders. The route of the entry of a photograph or of a
    curated record is a collection route, which [renderRoute] answers with
    the "room not found" panel. *)
Theorem built_entry_room win s entry r :
  In entry (SearchSystem.searchIndex (SearchSystem.buildSearchIndex win s)) ->
  (In (SearchSystem.Entry.type entry) ["writing"; "music"; "project"]
   /\ exists c,
        SearchSystem.lightboxController (SearchSystem.Entry.type entry)
          = Some c
        /\ Router.renderRoute win (SearchSystem.Entry.route entry) r
           = [ ClearAllWalls; ControllerRender c None; UpdateBackButton;
               UpdateHierarchyIndicator (SearchSystem.Entry.route entry) ])
  \/ (In (SearchSystem.Entry.type entry)
         [ "photo"; "curated_writing"; "curated_cinema"; "curated_music";
           "curated_misc" ]
      /\ Router.renderRoute win (SearchSystem.Entry.route entry) r
         = [Show404]).
Proof.
  intros Hin.
  destruct (built_entry_cases win s entry Hin)
    as (c & build & collection & record & Hb & Hr & ->).
  pose proof (records_defined win c build collection record Hb Hr) as Hd.
  unfold SearchSpec.builders in Hb. simpl in Hb.
  destruct Hb as [[= <- <- <-]|[[= <- <- <-]|[[= <- <- <-]|[[= <- <- <-]|
                 [[= <- <- <-]|[[= <- <- <-]|[[= <- <- <-]|[[= <- <- <-]|[]
                 ]]]]]]]].
  - right. split; [simpl; tauto|].
    apply (renderRoute_dynamic win "/photography/"); [simpl; tauto|].
    apply startsWith_append.
  - left. split; [simpl; tauto|]. exists WritingsController.
    split; [reflexivity|].
    unfold Router.renderRoute, Router.handleControllerRoute.
    rewrite Hd. reflexivity.
  - left. split; [simpl; tauto|]. exists MusicController.
    split; [reflexivity|].
    unfold Router.renderRoute, Router.handleControllerRoute.
    rewrite Hd. reflexivity.
  - left. split; [simpl; tauto|]. exists ProjectsController.
    split; [reflexivity|].
    unfold Router.renderRoute, Router.handleControllerRoute.
    rewrite Hd. reflexivity.
  - right. split; [simpl; tauto|].
    apply (renderRoute_dynamic win "/works/curated/writings/");
      [simpl; tauto|].
    apply startsWith_append.
  - right. split; [simpl; tauto|].
    apply (renderRoute_dynamic win "/works/curated/cinema/");
      [simpl; tauto|].
    apply startsWith_append.
  - right. split; [simpl; tauto|].
    apply (renderRoute_dynamic win "/works/curated/music/");
      [simpl; tauto|].
    apply startsWith_append.
  - right. split; [simpl; tauto|].
    apply (renderRoute_dynamic win "/works/curated/misc/");
      [simpl; tauto|].
    apply startsWith_append.
Qed.

Lemma built_entry_room_witness :
  Router.renderRoute Sample.library
    (SearchSystem.Entry.route (SearchSystem.writingEntry Sample.nightEssay))
    Router.initial
  = [ ClearAllWalls; ControllerRender WritingsController None;
      UpdateBackButton; UpdateHierarchyIndicator "/works/personal/writings" ]
  /\ Router.renderRoute Sample.library
       (SearchSystem.Entry.route (SearchSystem.photoEntry Sample.nightWalk))
       Router.initial
     = [Show404].
Proof.
  split; [reflexivity|].
  destruct (built_entry_room Sample.library
              (SearchSystem.initial Sample.elements)
              (SearchSystem.photoEntry Sample.nightWalk) Router.initial
              ltac:(simpl; tauto)) as [[Ht _]|[_ H]].
  - exfalso. simpl in Ht. destruct Ht as [Ht|[Ht|[Ht|[]]]]; discriminate.
  - exact H.
Defined.

(** X17: [selectResult] at an index that is not the index of a result does
    nothing. At the index of a result with a route, on a page with the
    overlay, it closes the search surface, keeps the result list, makes the
    route of the result the current route of the router with a new browser
    history entry, and hides the overlay. *)
Theorem selectResult_activates win index s r :
  ((index < 0)%Z
   \/ (Z.of_nat (List.length (SearchSystem.currentResults s)) <= index)%Z ->
   SearchSystem.selectResult win index s r = (s, r, []))
  /\ (forall result,
        SearchSystem.resultAt s index = Some result ->
        SearchSystem.Elements.overlay (SearchSystem.elements s) = true ->
        SearchSystem.Entry.route (SearchSystem.Result.item result) <> "" ->
        let '(s', r', effects) := SearchSystem.selectResult win index s r in
        SearchSystem.isSearchOpen s' = false
        /\ SearchSystem.currentResults s' = SearchSystem.currentResults s
        /\ Router.currentRoute r'
           = SearchSystem.Entry.route (SearchSystem.Result.item result)
        /\ Router.previousRoute r' = Router.currentRoute r
        /\ In (PushState
                 (SearchSystem.Entry.route (SearchSystem.Result.item result)))
              effects
        /\ In OverlayHide effects).
Proof.
  split.
  - intros Hout. unfold SearchSystem.selectResult, SearchSystem.resultAt.
    destruct (Z.ltb_spec index 0) as [_|Hpos]; [reflexivity|].
    destruct Hout as [Hneg|Hbig]; [lia|].
    destruct (nth_error (SearchSystem.currentResults s) (Z.to_nat index))
      eqn:E; [|reflexivity].
    assert (Hlt : (Z.to_nat index
                   < List.length (SearchSystem.currentResults s))%nat).
    { apply nth_error_Some. congruence. }
    lia.
  - intros result Hres Ho Hroute.
    unfold SearchSystem.selectResult. rewrite Hres.
    destruct (String.eqb_spec
                (SearchSystem.Entry.route (SearchSystem.Result.item result))
                "") as [|_]; [contradiction|].
    cbn [negb]. unfold SearchSystem.closeSearch. rewrite Ho.
    unfold Router.navigateTo. cbn [negb].
    repeat split.
    + left. reflexivity.
    + rewrite !in_app_iff. right. left. left. reflexivity.
Qed.

Lemma selectResult_activates_witness :
  SearchSystem.selectResult Sample.library 7 Sample.browsing Router.initial
  = (Sample.browsing, Router.initial, []).
Proof.
  apply (proj1 (selectResult_activates Sample.library 7 Sample.browsing
                  Router.initial)).
  right. vm_compute. discriminate.
Defined.

(** * Further properties of the keyboard and the sitemap *)

(** X18: while the search surface is open, the shortcuts of the document
    are suppressed. Whatever the key, its target and its modifiers, the
    handler of the document leaves the router, the index and the results
    as they are; all it can do is prevent the default action and hide the
    overlay. No navigation, no sitemap, no theme change. *)
Theorem shortcuts_suppressed_while_searching win e w :
  SearchSystem.isSearchOpen (App.search w) = true ->
  exists s added,
    App.onDocumentKeydown win e w
    = Some (App.mkWorld (App.router w) s (App.log w ++ added))
    /\ SearchSystem.searchIndex s = SearchSystem.searchIndex (App.search w)
    /\ SearchSystem.currentResults s
       = SearchSystem.currentResults (App.search w)
    /\ Forall (fun effect => effect = PreventDefault \/ effect = OverlayHide)
              added.
Proof.
  intros Hopen. unfold App.onDocumentKeydown. rewrite Hopen.
  assert (Same : exists s added,
    Some w = Some (App.mkWorld (App.router w) s (App.log w ++ added))
    /\ SearchSystem.searchIndex s = SearchSystem.searchIndex (App.search w)
    /\ SearchSystem.currentResults s
       = SearchSystem.currentResults (App.search w)
    /\ Forall (fun effect => effect = PreventDefault \/ effect = OverlayHide)
              added).
  { exists (App.search w), []. rewrite app_nil_r. by destruct w. }
  destruct (_ || _); [exact Same|].
  destruct (String.eqb _ "escape"); [|exact Same].
  unfold SearchSystem.closeSearch.
  destruct (SearchSystem.Elements.overlay _).
  - eexists _, _. split; [reflexivity|]. simpl.
    repeat split; repeat constructor; tauto.
  - eexists _, _. split; [reflexivity|]. simpl.
    repeat split; repeat constructor; tauto.
Qed.

Lemma shortcuts_suppressed_while_searching_witness :
  exists s added,
    App.onDocumentKeydown Sample.page
      (App.press "b" (App.Element "BODY")) Sample.searchOpened
    = Some (App.mkWorld (App.router Sample.searchOpened) s
              (App.log Sample.searchOpened ++ added))
    /\ SearchSystem.searchIndex s
       = SearchSystem.searchIndex (App.search Sample.searchOpened)
    /\ SearchSystem.currentResults s
       = SearchSystem.currentResults (App.search Sample.searchOpened)
    /\ Forall (fun effect => effect = PreventDefault \/ effect = OverlayHide)
              added.
Proof.
  apply (shortcuts_suppressed_while_searching Sample.page
           (App.press "b" (App.Element "BODY")) Sample.searchOpened eq_refl).
Defined.

(** X19: the shortcuts of the document ignore the case of the key: a key
    and its lowercase form do the same. *)
Theorem shortcuts_ignore_case win key on ctrl meta alt w :
  App.onDocumentKeydown win (App.mkKey key on ctrl meta alt) w
  = App.onDocumentKeydown win
      (App.mkKey (JS.toLowerCase key) on ctrl meta alt) w.
Proof.
  unfold App.onDocumentKeydown, App.unmodified. simpl.
  by rewrite toLowerCase_idempotent.
Qed.

Lemma escape_with_results_witness :
  exists w',
    App.keydown Sample.library (App.press "Escape" App.SearchInput)
      (App.mkWorld Router.initial Sample.browsing [])
    = Some w'
    /\ SearchSystem.isSearchOpen (App.search w') = false.
Proof.
  apply (escape_with_results Sample.library
           (App.mkWorld Router.initial Sample.browsing []));
    [discriminate | reflexivity | reflexivity].
Defined.

Lemma escape_outside_input_witness :
  exists w',
    App.keydown Sample.page (App.press "Escape" (App.Element "BODY"))
      Sample.searchOpened
    = Some w'
    /\ SearchSystem.isSearchOpen (App.search w') = false.
Proof.
  apply (escape_outside_input Sample.page Sample.searchOpened "BODY");
    [reflexivity | reflexivity | discriminate | discriminate].
Defined.

(** The buttons of the sitemap, as [generateSitemap] creates them. *)
Lemma sitemap_links :
  flat_map App.links App.generateSitemap
  = [ ""; "/about"; "/works"; "/works/personal";
      "/works/personal/photography"; "/works/personal/writings";
      "/works/personal/music"; "/works/personal/projects";
      "/works/curated"; "/works/curated/writings"; "/works/curated/cinema";
      "/works/curated/music"; "/works/curated/misc" ].
Proof. reflexivity. Qed.

(** X20: the sitemap and the route table name the same rooms. Every button
    of the sitemap leads to a room of the route table, and every room of
    the route table has a button; the call [navigateTo(route)] that a click
    on a button makes leaves its route as the current route and never shows
    the "room not found" panel. *)
Theorem sitemap_leads_to_rooms win route r :
  (In route (flat_map App.links App.generateSitemap)
   <-> is_Some (Router.routes !! route))
  /\ (In route (flat_map App.links App.generateSitemap) ->
      Router.currentRoute (fst (Router.navigateTo win route true None r))
      = route
      /\ ~ In Show404 (snd (Router.navigateTo win route true None r))).
Proof.
  rewrite sitemap_links. split.
  - split.
    + simpl. intros H.
      repeat (destruct H as [<-|H]; [by eexists|]). destruct H.
    + intros [config H]. apply routes_lookup_keys in H. simpl in *. tauto.
  - intros Hin. split; [reflexivity|].
    intros H.
    apply navigateTo_effects in H as [[_ ?]|[[? ?]|H]]; try discriminate.
    unfold Router.renderRoute in H.
    assert (Hc : is_Some (Router.routeConfigOf route)).
    { unfold Router.routeConfigOf. simpl in Hin.
      repeat (destruct Hin as [<-|Hin]; [by eexists|]). destruct Hin. }
    destruct Hc as [config Hc]. rewrite Hc in H.
    destruct (Router.handleControllerRoute win route) as [calls|] eqn:E.
    + destruct H as [?|H]; [discriminate|].
      destruct (handleControllerRoute_effects win route calls Show404 E H)
        as [[? ?]|[(? & ? & ?)|[?|?]]]; discriminate.
    + destruct H as [?|[?|[]]]; discriminate.
Qed.

Lemma sitemap_leads_to_rooms_witness :
  In "/works/curated/music" (flat_map App.links App.generateSitemap)
  /\ Router.currentRoute
       (fst (Router.navigateTo Sample.page "/works/curated/music" true None
               Router.initial))
     = "/works/curated/music"
  /\ ~ In Show404
         (snd (Router.navigateTo Sample.page "/works/curated/music" true None
                 Router.initial)).
Proof.
  assert (H : In "/works/curated/music"
                 (flat_map App.links App.generateSitemap)).
  { rewrite sitemap_links. simpl. tauto. }
  split; [exact H|].
  apply (proj2 (sitemap_leads_to_rooms Sample.page "/works/curated/music"
                  Router.initial) H).
Defined.
